(** * Revenue dashboard: the projection calculator

    A shallow embedding of [calculate_projections] from
    [src/zenta_dashboard.py] and the properties its specification states.

    Numbers.  The dashboard feeds the calculator with the values of
    [st.number_input] widgets whose [min_value], [value] and [step] are all
    integer literals, so every input is a Python [int]: an unbounded integer,
    modelled by [Z].  The operators [*], [+], [-] and [sum] on [int] are
    exact.  True division [/] of two [int]s yields a [float]: the correctly
    rounded binary64 quotient, [ZeroDivisionError] when the divisor is zero
    and [OverflowError] when the rounded quotient leaves the binary64 range.
    Floats are modelled by [spec_float] with precision 53 and maximal
    exponent 1024.

    Exceptions.  A raised exception aborts the call: statements are chained
    in an error monad, and a list comprehension evaluates its elements from
    left to right and stops at the first exception.

    The table.  [pd.DataFrame] is given a dictionary of ten lists; it keeps
    them in order as columns and raises [ValueError] unless they all have
    the same length.  The columns are kept here as the lists they were built
    from (pandas' internal column types are not modelled). *)

From Stdlib Require Import ZArith QArith List Lia Bool SpecFloat.
Import ListNotations.
Local Open Scope Z_scope.

(** ** Exceptions *)

Inductive exn : Type :=
| ZeroDivisionError
| OverflowError
| IndexError
| ValueError.

Inductive result (A : Type) : Type :=
| Ok (a : A)
| Raise (e : exn).

Arguments Ok {A} a.
Arguments Raise {A} e.

Definition bind {A B : Type} (m : result A) (k : A -> result B) : result B :=
  match m with
  | Ok a => k a
  | Raise e => Raise e
  end.

Notation "x <- m ;; k" := (bind m (fun x => k))
  (at level 61, m at next level, right associativity).

(** ** Python lists *)

Module Py.

(** [range(n)] *)
Definition range (n : nat) : list nat := seq 0 n.

(** [l[i]] for an index [i >= 0] *)
Definition index {A : Type} (l : list A) (i : nat) : result A :=
  match nth_error l i with
  | Some x => Ok x
  | None => Raise IndexError
  end.

(** [l[:n]] for a bound [n >= 0] *)
Definition slice_to {A : Type} (l : list A) (n : nat) : list A := firstn n l.

(** [sum(l)]: a left fold from [0] *)
Definition sum (l : list Z) : Z := fold_left Z.add l 0.

(** [[f(x) for x in l]] where [f] may raise *)
Fixpoint comprehension {A B : Type} (f : A -> result B) (l : list A)
  : result (list B) :=
  match l with
  | [] => Ok []
  | x :: l' =>
      y <- f x ;;
      ys <- comprehension f l' ;;
      Ok (y :: ys)
  end.

(** *** Floats *)

Definition prec : Z := 53.
Definition emax : Z := 1024.

(** An integer as an exact, not yet rounded, binary number. *)
Definition exact (z : Z) : spec_float :=
  match z with
  | Z0 => S754_zero false
  | Zpos p => S754_finite false p 0
  | Zneg p => S754_finite true p 0
  end.

(** [float(z)], for the integer literals of the source. *)
Definition float_of_int (z : Z) : spec_float :=
  binary_normalize prec emax z 0 false.

(** [a / b] on two [int]s *)
Definition truediv (a b : Z) : result spec_float :=
  if b =? 0 then Raise ZeroDivisionError
  else match SFdiv prec emax (exact a) (exact b) with
       | S754_infinity _ => Raise OverflowError
       | q => Ok q
       end.

(** [x * k] for a [float] [x] and an [int] literal [k]; a float product
    that overflows is an infinity, not an exception. *)
Definition fmul_int (x : spec_float) (k : Z) : spec_float :=
  SFmul prec emax x (float_of_int k).

(** A number in a column that mixes [int] and [float]. *)
Inductive num : Type :=
| Int (z : Z)
| Float (x : spec_float).

End Py.

(** ** The table *)

Record DataFrame : Type := mkDataFrame {
  Year : list Z;
  Units_Sold : list Z;
  Hardware_Revenue : list Z;
  Recurring_Revenue : list Z;
  Total_Revenue : list Z;
  Total_Costs : list Z;
  Profit : list Z;
  Profit_Margin : list Py.num;
  Cumulative_Revenue : list Z;
  ROI : list spec_float
}.

Module pd.

(** [pd.DataFrame({...})] on ten lists. *)
Definition DataFrame (year units_sold hardware_revenue recurring_revenue
    total_revenue total_costs profit : list Z) (profit_margin : list Py.num)
    (cumulative_revenue : list Z) (roi : list spec_float)
  : result DataFrame :=
  let n := length year in
  if forallb (Nat.eqb n)
       [length units_sold; length hardware_revenue; length recurring_revenue;
        length total_revenue; length total_costs; length profit;
        length profit_margin; length cumulative_revenue; length roi]
  then Ok (mkDataFrame year units_sold hardware_revenue recurring_revenue
             total_revenue total_costs profit profit_margin
             cumulative_revenue roi)
  else Raise ValueError.

End pd.

(** ** The statements of [calculate_projections]

    One definition per assignment of the function body, named after the
    variable it assigns, as a function of the variables it reads. *)

Module Stmt.

(** [[sum(units_sold[:i + 1]) for i in range(len(units_sold))]] *)
Definition total_units_in_market (units_sold : list Z) : list Z :=
  map (fun i => Py.sum (Py.slice_to units_sold (i + 1)))
      (Py.range (length units_sold)).

(** [[units * hardware_price for units in units_sold]] *)
Definition hardware_revenue (units_sold : list Z) (hardware_price : Z)
  : list Z :=
  map (fun units => units * hardware_price) units_sold.

(** [[total_units_in_market[i] * subscription_fee for i in range(len(years))]] *)
Definition recurring_revenue (total_units_in_market : list Z)
    (subscription_fee : Z) (years : list Z) : result (list Z) :=
  Py.comprehension
    (fun i => u <- Py.index total_units_in_market i ;;
              Ok (u * subscription_fee))
    (Py.range (length years)).

(** [[hardware_revenue[i] + recurring_revenue[i] for i in range(len(years))]] *)
Definition total_revenue (hardware_revenue recurring_revenue : list Z)
    (years : list Z) : result (list Z) :=
  Py.comprehension
    (fun i => h <- Py.index hardware_revenue i ;;
              r <- Py.index recurring_revenue i ;;
              Ok (h + r))
    (Py.range (length years)).

(** [[sum(total_revenue[:i + 1]) for i in range(len(total_revenue))]] *)
Definition cumulative_revenue (total_revenue : list Z) : list Z :=
  map (fun i => Py.sum (Py.slice_to total_revenue (i + 1)))
      (Py.range (length total_revenue)).

(** [[units * hardware_cost for units in units_sold]] *)
Definition hardware_costs (units_sold : list Z) (hardware_cost : Z)
  : list Z :=
  map (fun units => units * hardware_cost) units_sold.

(** [[total_units_in_market[i] * subscription_cost for i in range(len(years))]] *)
Definition recurring_costs (total_units_in_market : list Z)
    (subscription_cost : Z) (years : list Z) : result (list Z) :=
  Py.comprehension
    (fun i => u <- Py.index total_units_in_market i ;;
              Ok (u * subscription_cost))
    (Py.range (length years)).

(** [[hardware_costs[i] + recurring_costs[i] for i in range(len(years))]] *)
Definition total_costs (hardware_costs recurring_costs : list Z)
    (years : list Z) : result (list Z) :=
  Py.comprehension
    (fun i => h <- Py.index hardware_costs i ;;
              r <- Py.index recurring_costs i ;;
              Ok (h + r))
    (Py.range (length years)).

(** [[total_revenue[i] - total_costs[i] for i in range(len(years))]] *)
Definition profit (total_revenue total_costs : list Z) (years : list Z)
  : result (list Z) :=
  Py.comprehension
    (fun i => r <- Py.index total_revenue i ;;
              c <- Py.index total_costs i ;;
              Ok (r - c))
    (Py.range (length years)).

(** [profit[i] / total_revenue[i] * 100 if total_revenue[i] > 0 else 0]:
    the condition is evaluated first, and only the chosen branch after it. *)
Definition profit_margin_at (profit total_revenue : list Z) (i : nat)
  : result Py.num :=
  r <- Py.index total_revenue i ;;
  if r >? 0 then
    p <- Py.index profit i ;;
    r' <- Py.index total_revenue i ;;
    q <- Py.truediv p r' ;;
    Ok (Py.Float (Py.fmul_int q 100))
  else Ok (Py.Int 0).

(** [[... for i in range(len(years))]] over [profit_margin_at] *)
Definition profit_margin (profit total_revenue : list Z) (years : list Z)
  : result (list Py.num) :=
  Py.comprehension (profit_margin_at profit total_revenue)
                   (Py.range (length years)).

(** [(cumulative_revenue[i] - initial_investment) / initial_investment * 100] *)
Definition roi_at (cumulative_revenue : list Z) (initial_investment : Z)
    (i : nat) : result spec_float :=
  c <- Py.index cumulative_revenue i ;;
  q <- Py.truediv (c - initial_investment) initial_investment ;;
  Ok (Py.fmul_int q 100).

(** [[... for i in range(len(years))]] over [roi_at] *)
Definition roi (cumulative_revenue : list Z) (initial_investment : Z)
    (years : list Z) : result (list spec_float) :=
  Py.comprehension (roi_at cumulative_revenue initial_investment)
                   (Py.range (length years)).

End Stmt.

(** ** [calculate_projections]

    The integer assignments of the body (source lines 9 to 17) come first;
    [Var.t] holds the variables they assign, so that a property can speak of
    a variable that the returned table does not show. *)

Module Var.

Record t : Type := mk {
  total_units_in_market : list Z;
  hardware_revenue : list Z;
  recurring_revenue : list Z;
  total_revenue : list Z;
  cumulative_revenue : list Z;
  hardware_costs : list Z;
  recurring_costs : list Z;
  total_costs : list Z;
  profit : list Z
}.

End Var.

(** Source lines 9 to 17, in their order; the first exception ends the
    call. *)
Definition integer_columns (years units_sold : list Z)
    (hardware_price hardware_cost subscription_fee subscription_cost : Z)
  : result Var.t :=
  let total_units_in_market := Stmt.total_units_in_market units_sold in
  let hardware_revenue := Stmt.hardware_revenue units_sold hardware_price in
  recurring_revenue <-
    Stmt.recurring_revenue total_units_in_market subscription_fee years ;;
  total_revenue <-
    Stmt.total_revenue hardware_revenue recurring_revenue years ;;
  let cumulative_revenue := Stmt.cumulative_revenue total_revenue in
  let hardware_costs := Stmt.hardware_costs units_sold hardware_cost in
  recurring_costs <-
    Stmt.recurring_costs total_units_in_market subscription_cost years ;;
  total_costs <- Stmt.total_costs hardware_costs recurring_costs years ;;
  profit <- Stmt.profit total_revenue total_costs years ;;
  Ok (Var.mk total_units_in_market hardware_revenue recurring_revenue
        total_revenue cumulative_revenue hardware_costs recurring_costs
        total_costs profit).

(** The whole function: the integer assignments, the two float columns
    (source lines 18 and 19) and the table (lines 20 to 31). *)
Definition calculate_projections (years units_sold : list Z)
    (hardware_price hardware_cost subscription_fee subscription_cost
     initial_investment : Z) : result DataFrame :=
  v <- integer_columns years units_sold hardware_price hardware_cost
         subscription_fee subscription_cost ;;
  profit_margin <-
    Stmt.profit_margin (Var.profit v) (Var.total_revenue v) years ;;
  roi <- Stmt.roi (Var.cumulative_revenue v) initial_investment years ;;
  pd.DataFrame years units_sold (Var.hardware_revenue v)
    (Var.recurring_revenue v) (Var.total_revenue v) (Var.total_costs v)
    (Var.profit v) profit_margin (Var.cumulative_revenue v) roi.

(** ** The specification's vocabulary *)

(** [sigma f i] is the sum of [f 0], ..., [f i]. *)
Fixpoint sigma (f : nat -> Z) (i : nat) : Z :=
  match i with
  | O => f O
  | S j => sigma f j + f i
  end.

(** The running accumulator of the specification's step 8:
    [acc[i] = acc[i-1] + l[i]], starting from [0]. *)
Fixpoint running_from (acc : Z) (l : list Z) : list Z :=
  match l with
  | [] => []
  | x :: l' => (acc + x) :: running_from (acc + x) l'
  end.

Definition running_accumulator (l : list Z) : list Z := running_from 0 l.

(** The value of each integer column at a year index, as the specification
    writes it: a function of the inputs alone. *)

Section RowFormulas.

Variable units_sold : list Z.
Variables hardware_price hardware_cost subscription_fee subscription_cost : Z.

Definition units_at (i : nat) : Z := nth i units_sold 0.

Definition installed_base (i : nat) : Z := Py.sum (firstn (S i) units_sold).

Definition hardware_revenue_at (i : nat) : Z := units_at i * hardware_price.

Definition recurring_revenue_at (i : nat) : Z :=
  installed_base i * subscription_fee.

Definition total_revenue_at (i : nat) : Z :=
  hardware_revenue_at i + recurring_revenue_at i.

Definition hardware_costs_at (i : nat) : Z := units_at i * hardware_cost.

Definition recurring_costs_at (i : nat) : Z :=
  installed_base i * subscription_cost.

Definition total_costs_at (i : nat) : Z :=
  hardware_costs_at i + recurring_costs_at i.

Definition profit_at (i : nat) : Z := total_revenue_at i - total_costs_at i.

(** The revenue of the years [0..i], summed. *)
Definition cumulative_revenue_at (i : nat) : Z :=
  Py.sum (map total_revenue_at (seq 0 (S i))).

(** The integer variables of a call over [n] years. *)
Definition columns (n : nat) : Var.t :=
  Var.mk (Stmt.total_units_in_market units_sold)
    (Stmt.hardware_revenue units_sold hardware_price)
    (map recurring_revenue_at (Py.range n))
    (map total_revenue_at (Py.range n))
    (map cumulative_revenue_at (Py.range n))
    (Stmt.hardware_costs units_sold hardware_cost)
    (map recurring_costs_at (Py.range n))
    (map total_costs_at (Py.range n))
    (map profit_at (Py.range n)).

End RowFormulas.

(** The table a successful call returns, given its two float columns. *)
Definition projection_table (years units_sold : list Z)
    (hardware_price hardware_cost subscription_fee subscription_cost : Z)
    (profit_margin : list Py.num) (roi : list spec_float) : DataFrame :=
  let v := columns units_sold hardware_price hardware_cost subscription_fee
             subscription_cost (length years) in
  mkDataFrame years units_sold (Var.hardware_revenue v)
    (Var.recurring_revenue v) (Var.total_revenue v) (Var.total_costs v)
    (Var.profit v) profit_margin (Var.cumulative_revenue v) roi.

(** One row of the table. *)
Record ProjectionRow : Type := mkRow {
  row_year : Z;
  row_units_sold : Z;
  row_hardware_revenue : Z;
  row_recurring_revenue : Z;
  row_total_revenue : Z;
  row_total_costs : Z;
  row_profit : Z;
  row_profit_margin : Py.num;
  row_cumulative_revenue : Z;
  row_roi : spec_float
}.

Definition option_bind {A B : Type} (o : option A) (k : A -> option B)
  : option B :=
  match o with
  | Some a => k a
  | None => None
  end.

(** Row [i] of a table, when every column has an entry there. *)
Definition row_at (df : DataFrame) (i : nat) : option ProjectionRow :=
  option_bind (nth_error (Year df) i) (fun y =>
  option_bind (nth_error (Units_Sold df) i) (fun u =>
  option_bind (nth_error (Hardware_Revenue df) i) (fun hr =>
  option_bind (nth_error (Recurring_Revenue df) i) (fun rr =>
  option_bind (nth_error (Total_Revenue df) i) (fun tr =>
  option_bind (nth_error (Total_Costs df) i) (fun tc =>
  option_bind (nth_error (Profit df) i) (fun p =>
  option_bind (nth_error (Profit_Margin df) i) (fun pm =>
  option_bind (nth_error (Cumulative_Revenue df) i) (fun cr =>
  option_bind (nth_error (ROI df) i) (fun r =>
  Some (mkRow y u hr rr tr tc p pm cr r))))))))))).

(** The number of rows of a table whose columns all have that length. *)
Definition has_rows (df : DataFrame) (n : nat) : Prop :=
  length (Year df) = n /\ length (Units_Sold df) = n
  /\ length (Hardware_Revenue df) = n /\ length (Recurring_Revenue df) = n
  /\ length (Total_Revenue df) = n /\ length (Total_Costs df) = n
  /\ length (Profit df) = n /\ length (Profit_Margin df) = n
  /\ length (Cumulative_Revenue df) = n /\ length (ROI df) = n.

(** The input constraints of the specification (section 4.1). *)
Definition valid_input (years units_sold : list Z)
    (hardware_price hardware_cost subscription_fee subscription_cost
     initial_investment : Z) : Prop :=
  length years = length units_sold
  /\ (1 <= length years)%nat
  /\ Forall (fun u => 0 <= u) units_sold
  /\ 0 <= hardware_price /\ 0 <= hardware_cost
  /\ 0 <= subscription_fee /\ 0 <= subscription_cost
  /\ 0 < initial_investment.

(** Inputs of moderate size: no value and no number of years beyond
    [2 ^ 255].  The integers a [number_input] widget delivers are far
    below. *)
Definition moderate_input (years units_sold : list Z)
    (hardware_price hardware_cost subscription_fee subscription_cost
     initial_investment : Z) : Prop :=
  Z.of_nat (length years) <= 2 ^ 255
  /\ Forall (fun u => u <= 2 ^ 255) units_sold
  /\ hardware_price <= 2 ^ 255 /\ hardware_cost <= 2 ^ 255
  /\ subscription_fee <= 2 ^ 255 /\ subscription_cost <= 2 ^ 255
  /\ initial_investment <= 2 ^ 255.

(** The invalid inputs of the specification's error taxonomy (section 7):
    sequences of different lengths, a negative unit-economics value, or no
    year at all. *)
Definition invalid_input (years units_sold : list Z)
    (hardware_price hardware_cost subscription_fee subscription_cost : Z)
  : Prop :=
  length years <> length units_sold
  \/ hardware_price < 0 \/ hardware_cost < 0
  \/ subscription_fee < 0 \/ subscription_cost < 0
  \/ years = [].

(** A call is rejected when it raises instead of returning a table. *)
Definition rejected (r : result DataFrame) : Prop := exists e, r = Raise e.

(** The rational number a finite float stands for. *)
Definition float_value (x : spec_float) : option Q :=
  match x with
  | S754_zero _ => Some 0%Q
  | S754_finite s m e =>
      let v := match e with
               | Zneg p => Qmake (Zpos m) (2 ^ p)
               | _ => inject_Z (Zpos m * 2 ^ e)
               end in
      Some (if s then Qopp v else v)
  | _ => None
  end.

(** The margin and the ROI of a year, as functions of that year's integers. *)
Definition margin_of (profit total_revenue : Z) : result Py.num :=
  if total_revenue >? 0
  then q <- Py.truediv profit total_revenue ;;
       Ok (Py.Float (Py.fmul_int q 100))
  else Ok (Py.Int 0).

Definition roi_of (cumulative_revenue initial_investment : Z)
  : result spec_float :=
  q <- Py.truediv (cumulative_revenue - initial_investment)
         initial_investment ;;
  Ok (Py.fmul_int q 100).

(** ** Reading a float *)

(** The sign bit of a float: [math.copysign(1.0, x) < 0]. *)
Definition float_signbit (x : spec_float) : bool :=
  match x with
  | S754_zero s | S754_infinity s | S754_finite s _ _ => s
  | S754_nan => false
  end.

(** [math.isfinite(x)] *)
Definition float_isfinite (x : spec_float) : bool :=
  match x with
  | S754_zero _ | S754_finite _ _ _ => true
  | _ => false
  end.

(** [math.isnan(x)] *)
Definition float_isnan (x : spec_float) : bool :=
  match x with
  | S754_nan => true
  | _ => false
  end.

(** One more than the binary exponent of a finite non-zero float: the
    float is below [2 ^ float_top x] in absolute value. *)
Definition float_top (x : spec_float) : Z :=
  match x with
  | S754_finite _ m e => Zdigits2 (Zpos m) + e
  | _ => 0
  end.

(** The floats [-100.0] and [100.0]. *)
Definition minus_hundred : spec_float :=
  S754_finite true 7036874417766400 (-46).

Definition plus_hundred : spec_float :=
  S754_finite false 7036874417766400 (-46).

(** Inputs on which no float of the table leaves the finite range: no
    value and no number of years beyond [2 ^ 250]. *)
Definition small_input (years units_sold : list Z)
    (hardware_price hardware_cost subscription_fee subscription_cost
     initial_investment : Z) : Prop :=
  Z.of_nat (length years) <= 2 ^ 250
  /\ Forall (fun u => u <= 2 ^ 250) units_sold
  /\ hardware_price <= 2 ^ 250 /\ hardware_cost <= 2 ^ 250
  /\ subscription_fee <= 2 ^ 250 /\ subscription_cost <= 2 ^ 250
  /\ initial_investment <= 2 ^ 250.

(** A table with another year column. *)
Definition with_years (years : list Z) (df : DataFrame) : DataFrame :=
  mkDataFrame years (Units_Sold df) (Hardware_Revenue df)
    (Recurring_Revenue df) (Total_Revenue df) (Total_Costs df) (Profit df)
    (Profit_Margin df) (Cumulative_Revenue df) (ROI df).

(** ** The dashboard script

    The script reads its inputs from [st.sidebar.number_input] widgets
    (source lines 42 to 97), builds the two sequences and calls
    [calculate_projections] (lines 101 and 102).  A widget is modelled by the
    value it returns; [Sidebar.t] holds those values under the names of the
    variables they are assigned to, the unit count of year [i + 1] being
    [units_sold_in_year i]. *)

Module Sidebar.

Record t : Type := mk {
  years : Z;
  initial_investment : Z;
  hardware_price : Z;
  subscription_fee : Z;
  hardware_cost : Z;
  subscription_cost : Z;
  units_sold_in_year : nat -> Z
}.

(** What the [min_value] and [max_value] arguments of the widgets promise
    of the values returned: between 1 and 10 years, nothing negative. *)
Definition within_bounds (w : t) : Prop :=
  1 <= years w <= 10
  /\ 0 <= initial_investment w
  /\ 0 <= hardware_price w
  /\ 0 <= subscription_fee w
  /\ 0 <= hardware_cost w
  /\ 0 <= subscription_cost w
  /\ forall i, 0 <= units_sold_in_year w i.

(** No value beyond [bound]. *)
Definition at_most (bound : Z) (w : t) : Prop :=
  initial_investment w <= bound
  /\ hardware_price w <= bound
  /\ subscription_fee w <= bound
  /\ hardware_cost w <= bound
  /\ subscription_cost w <= bound
  /\ forall i, units_sold_in_year w i <= bound.

End Sidebar.

Module Script.

(** [list(range(a, b))] on two [int]s *)
Definition range_list (a b : Z) : list Z :=
  map (fun k => a + Z.of_nat k) (seq 0 (Z.to_nat (b - a))).

(** [[st.sidebar.number_input(...) for i in range(years)]] *)
Definition units_sold (w : Sidebar.t) : list Z :=
  map (Sidebar.units_sold_in_year w) (Py.range (Z.to_nat (Sidebar.years w))).

(** [list(range(1, years + 1))] *)
Definition years_list (w : Sidebar.t) : list Z :=
  range_list 1 (Sidebar.years w + 1).

(** [calculate_projections(years_list, units_sold, hardware_price,
    hardware_cost, subscription_fee, subscription_cost,
    initial_investment)] *)
Definition data (w : Sidebar.t) : result DataFrame :=
  calculate_projections (years_list w) (units_sold w)
    (Sidebar.hardware_price w) (Sidebar.hardware_cost w)
    (Sidebar.subscription_fee w) (Sidebar.subscription_cost w)
    (Sidebar.initial_investment w).

End Script.

(** ** Facts about the list primitives *)

Lemma bind_ok {A B : Type} (m : result A) (k : A -> result B) (b : B) :
  bind m k = Ok b -> exists a, m = Ok a /\ k a = Ok b.
Proof.
  destruct m as [a|e]; simpl; intros H; [exists a; auto | discriminate].
Qed.

Lemma index_lt {A : Type} (l : list A) (i : nat) (d : A) :
  (i < length l)%nat -> Py.index l i = Ok (nth i l d).
Proof.
  intros H. unfold Py.index.
  now rewrite (nth_error_nth' l d H).
Qed.

Lemma index_ge {A : Type} (l : list A) (i : nat) :
  (length l <= i)%nat -> Py.index l i = Raise IndexError.
Proof.
  intros H. unfold Py.index.
  apply nth_error_None in H. now rewrite H.
Qed.

Lemma sum_from (l : list Z) (a : Z) :
  fold_left Z.add l a = a + Py.sum l.
Proof.
  unfold Py.sum. revert a.
  induction l as [|x l IH]; intros a; simpl.
  - lia.
  - rewrite (IH (a + x)), (IH x). lia.
Qed.

Lemma sum_nil : Py.sum [] = 0.
Proof. reflexivity. Qed.

Lemma sum_cons (x : Z) (l : list Z) : Py.sum (x :: l) = x + Py.sum l.
Proof. unfold Py.sum at 1. simpl. apply sum_from. Qed.

Lemma sum_app (l l' : list Z) : Py.sum (l ++ l') = Py.sum l + Py.sum l'.
Proof.
  induction l as [|x l IH]; cbn [app].
  - rewrite sum_nil. lia.
  - rewrite !sum_cons, IH. lia.
Qed.

Lemma firstn_succ_nth {A : Type} (l : list A) (i : nat) (d : A) :
  (i < length l)%nat -> firstn (S i) l = firstn i l ++ [nth i l d].
Proof.
  revert i. induction l as [|x l IH]; intros i H; simpl in H.
  - lia.
  - destruct i as [|i].
    + reflexivity.
    + rewrite firstn_cons. simpl. f_equal. apply IH. lia.
Qed.

Lemma sum_firstn_succ (l : list Z) (i : nat) :
  (i < length l)%nat ->
  Py.sum (firstn (S i) l) = Py.sum (firstn i l) + nth i l 0.
Proof.
  intros H. rewrite (firstn_succ_nth l i 0 H), sum_app, sum_cons, sum_nil.
  lia.
Qed.

Lemma Forall_firstn {A : Type} (P : A -> Prop) (l : list A) (k : nat) :
  Forall P l -> Forall P (firstn k l).
Proof.
  intros H. revert k. induction H as [|x l Hx _ IH]; intros [|k]; simpl; auto.
Qed.

Lemma sum_nonneg (l : list Z) : Forall (fun u => 0 <= u) l -> 0 <= Py.sum l.
Proof.
  induction 1 as [|x l Hx _ IH].
  - rewrite sum_nil. lia.
  - rewrite sum_cons. lia.
Qed.

Lemma nth_error_map_range {A : Type} (g : nat -> A) (n i : nat) :
  (i < n)%nat -> nth_error (map g (seq 0 n)) i = Some (g i).
Proof.
  intros H. rewrite nth_error_map, nth_error_seq.
  destruct (Nat.ltb_spec i n); [reflexivity | lia].
Qed.

Lemma nth_map_range (g : nat -> Z) (n i : nat) :
  (i < n)%nat -> nth i (map g (seq 0 n)) 0 = g i.
Proof.
  intros H. apply nth_error_nth. now apply nth_error_map_range.
Qed.

Lemma nth_error_range (n i : nat) :
  (i < n)%nat -> nth_error (Py.range n) i = Some i.
Proof.
  intros H. unfold Py.range. rewrite nth_error_seq.
  destruct (Nat.ltb_spec i n); [reflexivity | lia].
Qed.

Lemma firstn_map_range {A : Type} (g : nat -> A) (n k : nat) :
  (k <= n)%nat -> firstn k (map g (seq 0 n)) = map g (seq 0 k).
Proof.
  intros H. rewrite firstn_map. f_equal.
  replace n with (k + (n - k))%nat by lia.
  rewrite seq_app, firstn_app, length_seq, Nat.sub_diag, firstn_0, app_nil_r.
  apply firstn_all2. rewrite length_seq. lia.
Qed.

(** *** Comprehensions *)

Lemma comprehension_seq_ok {A : Type} (f : nat -> result A) (g : nat -> A)
    (s n : nat) :
  (forall i, (s <= i < s + n)%nat -> f i = Ok (g i)) ->
  Py.comprehension f (seq s n) = Ok (map g (seq s n)).
Proof.
  revert s. induction n as [|n IH]; intros s H; simpl.
  - reflexivity.
  - rewrite (H s) by lia. simpl.
    rewrite (IH (S s)); [reflexivity|].
    intros i Hi. apply H. lia.
Qed.

Lemma comprehension_range_ok {A : Type} (f : nat -> result A) (g : nat -> A)
    (n : nat) :
  (forall i, (i < n)%nat -> f i = Ok (g i)) ->
  Py.comprehension f (Py.range n) = Ok (map g (Py.range n)).
Proof.
  intros H. apply comprehension_seq_ok. intros i Hi. apply H. lia.
Qed.

Lemma comprehension_length {A B : Type} (f : A -> result B) (l : list A)
    (ys : list B) :
  Py.comprehension f l = Ok ys -> length ys = length l.
Proof.
  revert ys. induction l as [|x l IH]; intros ys H; simpl in H.
  - inversion H. reflexivity.
  - apply bind_ok in H. destruct H as (y & _ & H).
    apply bind_ok in H. destruct H as (ys' & H' & H).
    inversion H. simpl. f_equal. now apply IH.
Qed.

Lemma comprehension_nth {A B : Type} (f : A -> result B) (l : list A)
    (ys : list B) (i : nat) (x : A) :
  Py.comprehension f l = Ok ys -> nth_error l i = Some x ->
  exists y, nth_error ys i = Some y /\ f x = Ok y.
Proof.
  revert ys i. induction l as [|a l IH]; intros ys i H Hi; simpl in H.
  - destruct i; discriminate.
  - apply bind_ok in H. destruct H as (y & Hy & H).
    apply bind_ok in H. destruct H as (ys' & H' & H).
    inversion H; subst ys. destruct i as [|i]; simpl in *.
    + inversion Hi; subst a. exists y. auto.
    + now apply (IH ys' i).
Qed.

Lemma comprehension_total {A B : Type} (f : A -> result B) (l : list A) :
  (forall x, In x l -> exists y, f x = Ok y) ->
  exists ys, Py.comprehension f l = Ok ys.
Proof.
  induction l as [|a l IH]; intros H; simpl.
  - eexists; reflexivity.
  - destruct (H a (or_introl eq_refl)) as (y & Hy). rewrite Hy. simpl.
    destruct IH as (ys & Hys).
    + intros x Hx. apply H. now right.
    + rewrite Hys. simpl. eexists; reflexivity.
Qed.

Lemma comprehension_raise {A B : Type} (f : A -> result B) (l : list A)
    (e : exn) :
  Py.comprehension f l = Raise e -> exists x, In x l /\ f x = Raise e.
Proof.
  induction l as [|a l IH]; simpl; intros H.
  - discriminate.
  - destruct (f a) as [y|e'] eqn:Ha; simpl in H.
    + destruct (Py.comprehension f l) as [ys|e'']; simpl in H.
      * discriminate.
      * inversion H; subst e''. destruct IH as (x & Hx & Hfx); auto.
        exists x. split; [now right | exact Hfx].
    + inversion H; subst e'. exists a. split; [now left | exact Ha].
Qed.

(** ** The integer columns in closed form *)

Section IntegerColumns.

Variables years units_sold : list Z.
Variables hardware_price hardware_cost subscription_fee subscription_cost : Z.
Hypothesis Hlen : (length years <= length units_sold)%nat.

Let n := length years.
Let TR := total_revenue_at units_sold hardware_price subscription_fee.
Let TC := total_costs_at units_sold hardware_cost subscription_cost.

Lemma total_units_in_market_eq :
  Stmt.total_units_in_market units_sold
  = map (installed_base units_sold) (seq 0 (length units_sold)).
Proof.
  unfold Stmt.total_units_in_market, Py.range, Py.slice_to, installed_base.
  apply map_ext. intros i. now rewrite Nat.add_1_r.
Qed.

Lemma total_units_in_market_length :
  length (Stmt.total_units_in_market units_sold) = length units_sold.
Proof. now rewrite total_units_in_market_eq, length_map, length_seq. Qed.

Lemma total_units_in_market_nth (i : nat) :
  (i < length units_sold)%nat ->
  nth i (Stmt.total_units_in_market units_sold) 0
  = installed_base units_sold i.
Proof. intros H. rewrite total_units_in_market_eq. now apply nth_map_range. Qed.

Lemma hardware_revenue_nth (i : nat) :
  nth i (Stmt.hardware_revenue units_sold hardware_price) 0
  = hardware_revenue_at units_sold hardware_price i.
Proof.
  exact (map_nth (fun u => u * hardware_price) units_sold 0 i).
Qed.

Lemma hardware_costs_nth (i : nat) :
  nth i (Stmt.hardware_costs units_sold hardware_cost) 0
  = hardware_costs_at units_sold hardware_cost i.
Proof.
  exact (map_nth (fun u => u * hardware_cost) units_sold 0 i).
Qed.

Lemma recurring_revenue_eq :
  Stmt.recurring_revenue (Stmt.total_units_in_market units_sold)
    subscription_fee years
  = Ok (map (recurring_revenue_at units_sold subscription_fee) (Py.range n)).
Proof.
  apply comprehension_range_ok. intros i Hi.
  rewrite (index_lt _ i 0) by (rewrite total_units_in_market_length; lia).
  simpl. rewrite total_units_in_market_nth by lia. reflexivity.
Qed.

Lemma recurring_costs_eq :
  Stmt.recurring_costs (Stmt.total_units_in_market units_sold)
    subscription_cost years
  = Ok (map (recurring_costs_at units_sold subscription_cost) (Py.range n)).
Proof.
  apply comprehension_range_ok. intros i Hi.
  rewrite (index_lt _ i 0) by (rewrite total_units_in_market_length; lia).
  simpl. rewrite total_units_in_market_nth by lia. reflexivity.
Qed.

Lemma total_revenue_eq :
  Stmt.total_revenue (Stmt.hardware_revenue units_sold hardware_price)
    (map (recurring_revenue_at units_sold subscription_fee) (Py.range n))
    years
  = Ok (map TR (Py.range n)).
Proof.
  apply comprehension_range_ok. intros i Hi.
  rewrite (index_lt _ i 0)
    by (unfold Stmt.hardware_revenue; rewrite length_map; lia).
  simpl.
  rewrite (index_lt _ i 0) by (unfold Py.range; rewrite length_map, length_seq; lia).
  simpl. rewrite hardware_revenue_nth. unfold Py.range.
  rewrite nth_map_range by lia. reflexivity.
Qed.

Lemma total_costs_eq :
  Stmt.total_costs (Stmt.hardware_costs units_sold hardware_cost)
    (map (recurring_costs_at units_sold subscription_cost) (Py.range n))
    years
  = Ok (map TC (Py.range n)).
Proof.
  apply comprehension_range_ok. intros i Hi.
  rewrite (index_lt _ i 0)
    by (unfold Stmt.hardware_costs; rewrite length_map; lia).
  simpl.
  rewrite (index_lt _ i 0) by (unfold Py.range; rewrite length_map, length_seq; lia).
  simpl. rewrite hardware_costs_nth. unfold Py.range.
  rewrite nth_map_range by lia. reflexivity.
Qed.

Lemma profit_eq :
  Stmt.profit (map TR (Py.range n)) (map TC (Py.range n)) years
  = Ok (map (profit_at units_sold hardware_price hardware_cost
               subscription_fee subscription_cost) (Py.range n)).
Proof.
  apply comprehension_range_ok. intros i Hi. unfold Py.range.
  rewrite (index_lt _ i 0) by (rewrite length_map, length_seq; lia).
  simpl.
  rewrite (index_lt _ i 0) by (rewrite length_map, length_seq; lia).
  simpl. rewrite !nth_map_range by lia. reflexivity.
Qed.

Lemma cumulative_revenue_eq :
  Stmt.cumulative_revenue (map TR (Py.range n))
  = map (cumulative_revenue_at units_sold hardware_price subscription_fee)
        (Py.range n).
Proof.
  unfold Stmt.cumulative_revenue, Py.range, Py.slice_to.
  rewrite length_map, length_seq.
  apply map_ext_in. intros i Hi. apply in_seq in Hi.
  rewrite Nat.add_1_r, firstn_map_range by lia. reflexivity.
Qed.

(** The integer assignments never fail when every year has a unit count. *)
Lemma integer_columns_eq :
  integer_columns years units_sold hardware_price hardware_cost
    subscription_fee subscription_cost
  = Ok (columns units_sold hardware_price hardware_cost subscription_fee
          subscription_cost n).
Proof.
  unfold integer_columns.
  rewrite recurring_revenue_eq. cbn [bind].
  rewrite total_revenue_eq. cbn [bind].
  rewrite recurring_costs_eq. cbn [bind].
  rewrite total_costs_eq. cbn [bind].
  rewrite profit_eq. cbn [bind].
  rewrite cumulative_revenue_eq. reflexivity.
Qed.

End IntegerColumns.

(** ** Division and the two float columns *)

Lemma truediv_zero (a : Z) : Py.truediv a 0 = Raise ZeroDivisionError.
Proof. reflexivity. Qed.

Lemma truediv_nonzero (a b : Z) :
  b <> 0 ->
  Py.truediv a b = Raise OverflowError \/ exists q, Py.truediv a b = Ok q.
Proof.
  intros Hb. unfold Py.truediv.
  destruct (Z.eqb_spec b 0) as [E|_]; [contradiction|].
  destruct (SFdiv Py.prec Py.emax (Py.exact a) (Py.exact b)); eauto.
Qed.

Lemma truediv_raise (a b : Z) (e : exn) :
  Py.truediv a b = Raise e ->
  (b = 0 /\ e = ZeroDivisionError) \/ (b <> 0 /\ e = OverflowError).
Proof.
  destruct (Z.eq_dec b 0) as [->|Hb]; intros H.
  - rewrite truediv_zero in H. inversion H. auto.
  - destruct (truediv_nonzero a b Hb) as [E|(q & E)]; rewrite E in H.
    + inversion H. auto.
    + discriminate.
Qed.

Section FloatColumns.

Variable n : nat.
Variables P TR CR : nat -> Z.
Variable initial_investment : Z.

Lemma profit_margin_at_eq (i : nat) :
  (i < n)%nat ->
  Stmt.profit_margin_at (map P (Py.range n)) (map TR (Py.range n)) i
  = if TR i >? 0
    then q <- Py.truediv (P i) (TR i) ;; Ok (Py.Float (Py.fmul_int q 100))
    else Ok (Py.Int 0).
Proof.
  intros Hi. unfold Stmt.profit_margin_at, Py.range.
  rewrite !(index_lt _ i 0) by (rewrite length_map, length_seq; lia).
  rewrite !nth_map_range by lia. cbn [bind].
  destruct (TR i >? 0); reflexivity.
Qed.

Lemma roi_at_eq (i : nat) :
  (i < n)%nat ->
  Stmt.roi_at (map CR (Py.range n)) initial_investment i
  = q <- Py.truediv (CR i - initial_investment) initial_investment ;;
    Ok (Py.fmul_int q 100).
Proof.
  intros Hi. unfold Stmt.roi_at, Py.range.
  rewrite (index_lt _ i 0) by (rewrite length_map, length_seq; lia).
  rewrite nth_map_range by lia. reflexivity.
Qed.

(** A margin is never a division by zero: the guard excludes it. *)
Lemma profit_margin_at_raise (i : nat) (e : exn) :
  (i < n)%nat ->
  Stmt.profit_margin_at (map P (Py.range n)) (map TR (Py.range n)) i
  = Raise e ->
  e = OverflowError.
Proof.
  intros Hi. rewrite profit_margin_at_eq by exact Hi.
  destruct (Z.gtb_spec (TR i) 0) as [Hpos|_]; [|discriminate].
  destruct (Py.truediv (P i) (TR i)) as [q|e'] eqn:E; cbn [bind];
    [discriminate|].
  intros H; inversion H; subst e'.
  apply truediv_raise in E. destruct E as [[E _]|[_ E]]; [lia | exact E].
Qed.

Lemma roi_at_raise (i : nat) (e : exn) :
  (i < n)%nat -> initial_investment <> 0 ->
  Stmt.roi_at (map CR (Py.range n)) initial_investment i = Raise e ->
  e = OverflowError.
Proof.
  intros Hi Hinv. rewrite roi_at_eq by exact Hi.
  destruct (Py.truediv _ _) as [q|e'] eqn:E; cbn [bind]; [discriminate|].
  intros H; inversion H; subst e'.
  apply truediv_raise in E. destruct E as [[E _]|[_ E]];
    [contradiction | exact E].
Qed.

Lemma roi_at_zero (i : nat) :
  (i < n)%nat -> initial_investment = 0 ->
  Stmt.roi_at (map CR (Py.range n)) initial_investment i
  = Raise ZeroDivisionError.
Proof.
  intros Hi E. rewrite roi_at_eq by exact Hi. rewrite E. reflexivity.
Qed.

End FloatColumns.

(** ** The table constructor *)

Lemma DataFrame_ok (c1 c2 c3 c4 c5 c6 c7 : list Z) (c8 : list Py.num)
    (c9 : list Z) (c10 : list spec_float) :
  length c2 = length c1 -> length c3 = length c1 -> length c4 = length c1 ->
  length c5 = length c1 -> length c6 = length c1 -> length c7 = length c1 ->
  length c8 = length c1 -> length c9 = length c1 -> length c10 = length c1 ->
  pd.DataFrame c1 c2 c3 c4 c5 c6 c7 c8 c9 c10
  = Ok (mkDataFrame c1 c2 c3 c4 c5 c6 c7 c8 c9 c10).
Proof.
  intros H2 H3 H4 H5 H6 H7 H8 H9 H10. unfold pd.DataFrame.
  rewrite H2, H3, H4, H5, H6, H7, H8, H9, H10. cbn [forallb].
  rewrite Nat.eqb_refl. reflexivity.
Qed.

Lemma DataFrame_inv (c1 c2 c3 c4 c5 c6 c7 : list Z) (c8 : list Py.num)
    (c9 : list Z) (c10 : list spec_float) (r : result DataFrame) :
  pd.DataFrame c1 c2 c3 c4 c5 c6 c7 c8 c9 c10 = r ->
  (r = Ok (mkDataFrame c1 c2 c3 c4 c5 c6 c7 c8 c9 c10)
   /\ length c2 = length c1 /\ length c3 = length c1)
  \/ r = Raise ValueError.
Proof.
  unfold pd.DataFrame. cbn [forallb].
  destruct (Nat.eqb_spec (length c1) (length c2)) as [E2|_];
    [|intros <-; now right].
  destruct (Nat.eqb_spec (length c1) (length c3)) as [E3|_];
    [|intros <-; now right].
  cbn [andb].
  match goal with |- (if ?b then _ else _) = _ -> _ => destruct b end;
    intros <-; [left|right]; auto.
Qed.

(** ** The call as a whole *)

Lemma comprehension_seq_first_raise {A : Type} (f : nat -> result A)
    (e : exn) (s n k : nat) :
  (s <= k < s + n)%nat ->
  (forall i, (s <= i < k)%nat -> exists y, f i = Ok y) ->
  f k = Raise e ->
  Py.comprehension f (seq s n) = Raise e.
Proof.
  revert s. induction n as [|n IH]; intros s Hk Hok Hraise; [lia|].
  cbn [seq Py.comprehension].
  destruct (Nat.eq_dec s k) as [->|Hne].
  - rewrite Hraise. reflexivity.
  - destruct (Hok s) as (y & Hy); [lia|]. rewrite Hy. cbn [bind].
    rewrite (IH (S s)); [reflexivity | lia | | exact Hraise].
    intros i Hi. apply Hok. lia.
Qed.

Section WholeCall.

Variables years units_sold : list Z.
Variables hardware_price hardware_cost subscription_fee subscription_cost : Z.
Variable initial_investment : Z.

Let n := length years.
Let call :=
  calculate_projections years units_sold hardware_price hardware_cost
    subscription_fee subscription_cost initial_investment.
Let v :=
  columns units_sold hardware_price hardware_cost subscription_fee
    subscription_cost n.
Let margins :=
  Stmt.profit_margin (Var.profit v) (Var.total_revenue v) years.
Let rois :=
  Stmt.roi (Var.cumulative_revenue v) initial_investment years.

(** More years than unit counts: the first missing unit count is an
    [IndexError] in the recurring-revenue comprehension. *)
Lemma integer_columns_years_longer :
  (length units_sold < length years)%nat ->
  integer_columns years units_sold hardware_price hardware_cost
    subscription_fee subscription_cost = Raise IndexError.
Proof.
  intros H. unfold integer_columns.
  assert (E : Stmt.recurring_revenue (Stmt.total_units_in_market units_sold)
                subscription_fee years = Raise IndexError).
  { unfold Stmt.recurring_revenue, Py.range.
    apply comprehension_seq_first_raise with (k := length units_sold).
    - lia.
    - intros i Hi.
      rewrite (index_lt _ i 0) by (rewrite total_units_in_market_length; lia).
      cbn [bind]. eauto.
    - rewrite index_ge by (rewrite total_units_in_market_length; lia).
      reflexivity. }
  rewrite E. reflexivity.
Qed.

Lemma calculate_projections_years_longer :
  (length units_sold < length years)%nat -> call = Raise IndexError.
Proof.
  intros H. unfold call, calculate_projections.
  rewrite integer_columns_years_longer by exact H. reflexivity.
Qed.

Lemma calculate_projections_unfold :
  (length years <= length units_sold)%nat ->
  call = (profit_margin <- margins ;;
          roi <- rois ;;
          pd.DataFrame years units_sold (Var.hardware_revenue v)
            (Var.recurring_revenue v) (Var.total_revenue v)
            (Var.total_costs v) (Var.profit v) profit_margin
            (Var.cumulative_revenue v) roi).
Proof.
  intros H. unfold call, calculate_projections.
  rewrite integer_columns_eq by exact H. reflexivity.
Qed.

Lemma calculate_projections_ok (pm : list Py.num) (roi : list spec_float) :
  length years = length units_sold ->
  margins = Ok pm -> rois = Ok roi ->
  call = Ok (projection_table years units_sold hardware_price hardware_cost
               subscription_fee subscription_cost pm roi).
Proof.
  intros Hlen Hpm Hroi.
  rewrite calculate_projections_unfold by lia.
  rewrite Hpm, Hroi. cbn [bind].
  apply comprehension_length in Hpm, Hroi.
  unfold Py.range in *. rewrite length_seq in Hpm, Hroi.
  unfold projection_table. fold n. fold v.
  apply DataFrame_ok; subst v; cbn; unfold Stmt.hardware_revenue, Py.range;
    rewrite ?length_map, ?length_seq; auto.
Qed.

Lemma calculate_projections_ok_inv (df : DataFrame) :
  call = Ok df ->
  length years = length units_sold
  /\ exists pm roi,
       margins = Ok pm /\ rois = Ok roi
       /\ df = projection_table years units_sold hardware_price hardware_cost
                 subscription_fee subscription_cost pm roi.
Proof.
  intros H.
  destruct (Nat.lt_ge_cases (length units_sold) (length years)) as [Hlt|Hge].
  - rewrite calculate_projections_years_longer in H by exact Hlt.
    discriminate.
  - rewrite calculate_projections_unfold in H by exact Hge.
    destruct margins as [pm|e]; [|discriminate].
    destruct rois as [roi|e]; [|discriminate].
    cbn [bind] in H. apply DataFrame_inv in H.
    destruct H as [(H & H2 & _)|H]; [|discriminate].
    inversion H. split; [now symmetry|].
    exists pm, roi. auto.
Qed.

(** With as many years as unit counts the only exceptions are arithmetic:
    a quotient beyond the float range, or a return on a zero investment. *)
Lemma calculate_projections_raise (e : exn) :
  length years = length units_sold ->
  call = Raise e ->
  e = OverflowError
  \/ (e = ZeroDivisionError /\ initial_investment = 0 /\ years <> []).
Proof.
  intros Hlen H0. pose proof H0 as H.
  rewrite calculate_projections_unfold in H by lia.
  destruct margins as [pm|e1] eqn:Hpm.
  - destruct rois as [roi|e2] eqn:Hroi.
    + rewrite (calculate_projections_ok pm roi Hlen Hpm Hroi) in H0.
      discriminate.
    + cbn [bind] in H. inversion H; subst e2.
      apply comprehension_raise in Hroi. destruct Hroi as (i & Hi & Hr).
      apply in_seq in Hi.
      destruct (Z.eq_dec initial_investment 0) as [E0|Hne].
      * right. subst v. cbn [Var.cumulative_revenue columns] in Hr.
        rewrite roi_at_zero in Hr; [|fold n; lia|exact E0].
        inversion Hr. repeat split; auto.
        intros E. subst n. rewrite E in Hi. simpl in Hi. lia.
      * left. subst v. cbn [Var.cumulative_revenue columns] in Hr.
        apply roi_at_raise in Hr; [exact Hr | fold n; lia | exact Hne].
  - cbn [bind] in H. inversion H; subst e1.
    apply comprehension_raise in Hpm. destruct Hpm as (i & Hi & Hr).
    apply in_seq in Hi. left.
    subst v. cbn [Var.profit Var.total_revenue columns] in Hr.
    apply profit_margin_at_raise in Hr; [exact Hr | fold n; lia].
Qed.

End WholeCall.

(** ** Binary64 rounding stays finite on moderate quotients

    The rounding of [SpecFloat] shifts the mantissa right until it has at
    most [prec] digits, rounds to nearest even, and shifts once more if the
    rounding carried.  A value below [2 ^ 1023] therefore never reaches the
    exponent of the infinities. *)

Lemma digits2_pos_gt (p : positive) : Zpos p < 2 ^ Zpos (digits2_pos p).
Proof.
  induction p as [p IH|p IH|]; cbn [digits2_pos].
  - rewrite Pos2Z.inj_succ, Z.pow_succ_r by lia. lia.
  - rewrite Pos2Z.inj_succ, Z.pow_succ_r by lia. lia.
  - reflexivity.
Qed.

Lemma digits2_pos_le (p : positive) (k : Z) :
  0 <= k -> Zpos p < 2 ^ k -> Zpos (digits2_pos p) <= k.
Proof.
  revert k. induction p as [p IH|p IH|]; intros k Hk H; cbn [digits2_pos].
  - assert (k <> 0) by (intros ->; simpl in H; lia).
    replace k with (Z.succ (k - 1)) in H by lia.
    rewrite Z.pow_succ_r in H by lia.
    specialize (IH (k - 1)). lia.
  - assert (k <> 0) by (intros ->; simpl in H; lia).
    replace k with (Z.succ (k - 1)) in H by lia.
    rewrite Z.pow_succ_r in H by lia.
    specialize (IH (k - 1)). lia.
  - assert (k <> 0) by (intros ->; simpl in H; lia). lia.
Qed.

Lemma Zdigits2_nonneg (m : Z) : 0 <= Zdigits2 m.
Proof. destruct m; simpl; lia. Qed.

Lemma Zdigits2_gt (m : Z) : 0 <= m -> m < 2 ^ Zdigits2 m.
Proof.
  destruct m as [|p|p]; intros H; cbn [Zdigits2].
  - reflexivity.
  - apply digits2_pos_gt.
  - lia.
Qed.

Lemma Zdigits2_le (m k : Z) : 0 <= m -> 0 <= k -> m < 2 ^ k -> Zdigits2 m <= k.
Proof.
  destruct m as [|p|p]; intros H Hk Hm; cbn [Zdigits2].
  - exact Hk.
  - now apply digits2_pos_le.
  - lia.
Qed.

Lemma shr_1_m (r : shr_record) : 0 <= shr_m r -> shr_m (shr_1 r) = shr_m r / 2.
Proof.
  destruct r as [m b s]. cbn [shr_m]. intros H.
  destruct m as [|[p|p|]|p]; cbn [shr_1 shr_m].
  - reflexivity.
  - rewrite Pos2Z.inj_xI. apply Z.div_unique with (r := 1); lia.
  - rewrite Pos2Z.inj_xO. apply Z.div_unique with (r := 0); lia.
  - reflexivity.
  - lia.
Qed.

Lemma iter_shr_1_m (p : positive) (r : shr_record) :
  0 <= shr_m r -> shr_m (iter_pos shr_1 p r) = shr_m r / 2 ^ Zpos p.
Proof.
  revert r. induction p as [p IH|p IH|]; intros r H; cbn [iter_pos].
  - assert (H1 : 0 <= shr_m (shr_1 r)).
    { rewrite shr_1_m by exact H. apply Z.div_pos; lia. }
    assert (H2 : 0 <= shr_m (iter_pos shr_1 p (shr_1 r))).
    { rewrite IH by exact H1. apply Z.div_pos; [exact H1|]. apply Z.pow_pos_nonneg; lia. }
    rewrite IH by exact H2. rewrite IH by exact H1. rewrite shr_1_m by exact H.
    assert (0 < 2 ^ Zpos p) by (apply Z.pow_pos_nonneg; lia).
    rewrite !Z.div_div by lia.
    f_equal. change (Z.pos p~1) with (2 * Z.pos p + 1).
    rewrite Z.pow_add_r, Z.pow_twice_r by lia.
    change (2 ^ 1) with 2. ring.
  - assert (H2 : 0 <= shr_m (iter_pos shr_1 p r)).
    { rewrite IH by exact H. apply Z.div_pos; [exact H|]. apply Z.pow_pos_nonneg; lia. }
    rewrite IH by exact H2. rewrite IH by exact H.
    assert (0 < 2 ^ Zpos p) by (apply Z.pow_pos_nonneg; lia).
    rewrite !Z.div_div by lia.
    f_equal. change (Z.pos p~0) with (2 * Z.pos p).
    rewrite Z.pow_twice_r. ring.
  - rewrite shr_1_m by exact H. reflexivity.
Qed.

Lemma shr_fexp_spec (m e : Z) (l : location) :
  0 <= m ->
  exists k, 0 <= k
    /\ snd (shr_fexp Py.prec Py.emax m e l) = e + k
    /\ e + k = Z.max e (fexp Py.prec Py.emax (Zdigits2 m + e))
    /\ shr_m (fst (shr_fexp Py.prec Py.emax m e l)) = m / 2 ^ k.
Proof.
  intros Hm. unfold shr_fexp, shr.
  assert (Hr : shr_m (shr_record_of_loc m l) = m)
    by (destruct l as [|[| |]]; reflexivity).
  destruct (fexp Py.prec Py.emax (Zdigits2 m + e) - e) as [|p|p] eqn:E; cbn [fst snd].
  - exists 0. rewrite Hr, Z.div_1_r. lia.
  - exists (Zpos p). rewrite iter_shr_1_m by lia. rewrite Hr. lia.
  - exists 0. rewrite Hr, Z.div_1_r. lia.
Qed.

Lemma round_nearest_even_bounds (m : Z) (l : location) :
  m <= round_nearest_even m l <= m + 1.
Proof.
  destruct l as [|[| |]]; cbn [round_nearest_even]; try lia.
  destruct (Z.even m); lia.
Qed.

Lemma binary_round_aux_not_infinity (sx : bool) (mx ex : Z) (lx : location) :
  0 <= mx -> ex <= 971 -> Zdigits2 mx + ex <= 1023 ->
  forall s, binary_round_aux Py.prec Py.emax sx mx ex lx <> S754_infinity s.
Proof.
  intros Hm Hex Hd s. unfold binary_round_aux.
  destruct (shr_fexp_spec mx ex lx Hm) as (k1 & Hk1 & He1 & Hmax1 & Hm1).
  destruct (shr_fexp Py.prec Py.emax mx ex lx) as [r1 e1]. cbn [fst snd] in He1, Hm1.
  set (m1 := round_nearest_even (shr_m r1) (loc_of_shr_record r1)).
  assert (Hpow : 0 < 2 ^ k1) by (apply Z.pow_pos_nonneg; lia).
  assert (Hr1 : 0 <= shr_m r1) by (rewrite Hm1; apply Z.div_pos; lia).
  pose proof (round_nearest_even_bounds (shr_m r1) (loc_of_shr_record r1)) as Hb.
  fold m1 in Hb.
  assert (Hm1' : 0 <= m1) by lia.
  destruct (shr_fexp_spec m1 e1 loc_Exact Hm1') as (k2 & Hk2 & He2 & Hmax2 & _).
  destruct (shr_fexp Py.prec Py.emax m1 e1 loc_Exact) as [r2 e2]. cbn [fst snd] in He2.
  assert (Hdig : Zdigits2 m1 + e1 <= 1024).
  { pose proof (Zdigits2_nonneg mx) as Hd0.
    pose proof (Zdigits2_gt mx Hm) as Hlt.
    destruct (Z.le_gt_cases k1 (Zdigits2 mx)) as [Hle|Hgt].
    - assert (shr_m r1 < 2 ^ (Zdigits2 mx - k1)).
      { rewrite Hm1. apply Z.div_lt_upper_bound; [lia|].
        rewrite <- Z.pow_add_r by lia.
        replace (k1 + (Zdigits2 mx - k1)) with (Zdigits2 mx) by lia. exact Hlt. }
      assert (m1 < 2 ^ (Zdigits2 mx - k1 + 1)).
      { rewrite Z.pow_add_r by lia. change (2 ^ 1) with 2. lia. }
      assert (Zdigits2 m1 <= Zdigits2 mx - k1 + 1) by (apply Zdigits2_le; lia).
      lia.
    - assert (shr_m r1 = 0).
      { rewrite Hm1. apply Z.div_small. split; [lia|].
        apply Z.lt_le_trans with (1 := Hlt). apply Z.pow_le_mono_r; lia. }
      assert (Zdigits2 m1 <= 1) by (apply Zdigits2_le; simpl; lia).
      unfold fexp, emin, Py.prec, Py.emax in Hmax1. lia. }
  destruct (shr_m r2); try discriminate.
  destruct (Z.leb_spec e2 (Py.emax - Py.prec)) as [_|Hgt]; [discriminate|].
  exfalso. unfold fexp, emin, Py.prec, Py.emax in *. lia.
Qed.

Lemma SFdiv_core_binary_bounds (m1 m2 : positive) :
  let '(q, e, _) :=
    SFdiv_core_binary Py.prec Py.emax (Zpos m1) 0 (Zpos m2) 0 in
  0 <= q /\ e <= 0 /\ Zdigits2 q + e <= Zdigits2 (Zpos m1).
Proof.
  unfold SFdiv_core_binary.
  set (e := Z.min _ _).
  assert (He : e <= 0) by (subst e; cbn; lia).
  set (m := match 0 - 0 - e with Z.pos _ => _ | _ => _ end).
  assert (Hm : m = Zpos m1 * 2 ^ (- e)).
  { subst m. destruct (0 - 0 - e) as [|p|p] eqn:E.
    - replace (- e) with 0 by lia. cbn. lia.
    - rewrite Z.shiftl_mul_pow2 by lia. f_equal. f_equal. lia.
    - lia. }
  clearbody m e.
  assert (Hq : m / Zpos m2 = fst (Z.div_eucl m (Zpos m2))) by reflexivity.
  destruct (Z.div_eucl m (Zpos m2)) as [q r]. cbn [fst] in Hq. subst q.
  assert (Hpow : 0 < 2 ^ (- e)) by (apply Z.pow_pos_nonneg; lia).
  assert (H0 : 0 <= m) by (rewrite Hm; lia).
  assert (Hq0 : 0 <= m / Zpos m2) by (apply Z.div_pos; lia).
  repeat split; try assumption.
  assert (Hle : m / Zpos m2 <= m).
  { apply Z.div_le_upper_bound; [lia|]. nia. }
  pose proof (Zdigits2_gt (Zpos m1) ltac:(lia)) as Hd.
  pose proof (Zdigits2_nonneg (Zpos m1)) as Hd0.
  assert (Hlt : m / Zpos m2 < 2 ^ (Zdigits2 (Zpos m1) - e)).
  { apply Z.le_lt_trans with (1 := Hle). rewrite Hm.
    replace (Zdigits2 (Zpos m1) - e) with (Zdigits2 (Zpos m1) + - e) by lia.
    rewrite Z.pow_add_r by lia. nia. }
  assert (Zdigits2 (m / Zpos m2) <= Zdigits2 (Zpos m1) - e)
    by (apply Zdigits2_le; lia).
  lia.
Qed.

Lemma SFdiv_exact_not_infinity (a b : Z) (s : bool) :
  b <> 0 -> Z.abs a < 2 ^ 1023 ->
  SFdiv Py.prec Py.emax (Py.exact a) (Py.exact b) <> S754_infinity s.
Proof.
  intros Hb Ha.
  assert (Hpos : forall (sa sb : bool) (ma mb : positive),
            Zpos ma < 2 ^ 1023 ->
            SFdiv Py.prec Py.emax (S754_finite sa ma 0) (S754_finite sb mb 0)
            <> S754_infinity s).
  { intros sa sb ma mb Hma. cbn [SFdiv].
    pose proof (SFdiv_core_binary_bounds ma mb) as Hc.
    destruct (SFdiv_core_binary Py.prec Py.emax (Zpos ma) 0 (Zpos mb) 0)
      as [[q e] l].
    destruct Hc as (Hq & He & Hd).
    apply binary_round_aux_not_infinity; try lia.
    assert (Zdigits2 (Zpos ma) <= 1023) by (apply Zdigits2_le; lia).
    lia. }
  destruct a as [|ma|ma], b as [|mb|mb]; try contradiction;
    cbn [Py.exact]; try discriminate; apply Hpos; lia.
Qed.

Lemma truediv_in_range (a b : Z) :
  b <> 0 -> Z.abs a < 2 ^ 1023 -> exists q, Py.truediv a b = Ok q.
Proof.
  intros Hb Ha. unfold Py.truediv.
  destruct (Z.eqb_spec b 0) as [E|_]; [contradiction|].
  pose proof (fun s => SFdiv_exact_not_infinity a b s Hb Ha) as H.
  destruct (SFdiv Py.prec Py.emax (Py.exact a) (Py.exact b)) as [s|s| |s m e];
    eauto.
  exfalso. now apply (H s).
Qed.

(** ** Magnitudes of the integer columns *)

Section Magnitudes.

Variable B : Z.
Hypothesis HB : 0 <= B.

Let bounded (x : Z) : Prop := 0 <= x <= B.

Lemma sum_bounded (l : list Z) :
  Forall bounded l -> 0 <= Py.sum l <= Z.of_nat (length l) * B.
Proof.
  induction 1 as [|x l Hx _ IH].
  - rewrite sum_nil. simpl. lia.
  - rewrite sum_cons. cbn [length]. unfold bounded in Hx. lia.
Qed.

Variable units_sold : list Z.
Variables hardware_price hardware_cost subscription_fee subscription_cost : Z.
Hypothesis Hunits : Forall bounded units_sold.
Hypothesis Hprice : bounded hardware_price.
Hypothesis Hcost : bounded hardware_cost.
Hypothesis Hfee : bounded subscription_fee.
Hypothesis Hscost : bounded subscription_cost.
Hypothesis Hn : Z.of_nat (length units_sold) <= B.

Lemma units_at_bounded (i : nat) : bounded (units_at units_sold i).
Proof.
  unfold units_at.
  destruct (Nat.lt_ge_cases i (length units_sold)) as [Hi|Hi].
  - rewrite Forall_forall in Hunits. apply Hunits. now apply nth_In.
  - rewrite nth_overflow by exact Hi. unfold bounded. lia.
Qed.

Lemma installed_base_bounded (i : nat) :
  0 <= installed_base units_sold i <= B * B.
Proof.
  unfold installed_base.
  pose proof (sum_bounded _ (Forall_firstn _ _ (S i) Hunits)) as H.
  pose proof (firstn_le_length (S i) units_sold) as H1.
  rewrite length_firstn in H.
  assert (Z.of_nat (Nat.min (S i) (length units_sold)) <= B) by lia.
  nia.
Qed.

Lemma total_revenue_at_bounded (i : nat) :
  0 <= total_revenue_at units_sold hardware_price subscription_fee i
    <= B * B + B * B * B.
Proof.
  unfold total_revenue_at, hardware_revenue_at, recurring_revenue_at.
  pose proof (units_at_bounded i) as Hu. pose proof (installed_base_bounded i).
  unfold bounded in *. nia.
Qed.

Lemma total_costs_at_bounded (i : nat) :
  0 <= total_costs_at units_sold hardware_cost subscription_cost i
    <= B * B + B * B * B.
Proof.
  unfold total_costs_at, hardware_costs_at, recurring_costs_at.
  pose proof (units_at_bounded i) as Hu. pose proof (installed_base_bounded i).
  unfold bounded in *. nia.
Qed.

Lemma profit_at_bounded (i : nat) :
  Z.abs (profit_at units_sold hardware_price hardware_cost subscription_fee
           subscription_cost i) <= B * B + B * B * B.
Proof.
  unfold profit_at.
  pose proof (total_revenue_at_bounded i). pose proof (total_costs_at_bounded i).
  lia.
Qed.

Lemma cumulative_revenue_at_bounded (i : nat) :
  (i < length units_sold)%nat ->
  0 <= cumulative_revenue_at units_sold hardware_price subscription_fee i
    <= B * (B * B + B * B * B).
Proof.
  intros Hi. unfold cumulative_revenue_at.
  set (l := map _ _).
  assert (Hl : Forall (fun x => 0 <= x <= B * B + B * B * B) l).
  { subst l. apply Forall_forall. intros x Hx.
    apply in_map_iff in Hx. destruct Hx as (j & <- & _).
    apply total_revenue_at_bounded. }
  assert (Hlen : length l = S i) by (subst l; now rewrite length_map, length_seq).
  clearbody l.
  assert (Hs : 0 <= Py.sum l <= Z.of_nat (length l) * (B * B + B * B * B)).
  { clear Hlen. induction Hl as [|x l Hx _ IH].
    - rewrite sum_nil. simpl. lia.
    - rewrite sum_cons. cbn [length]. lia. }
  rewrite Hlen in Hs.
  assert (Z.of_nat (S i) <= B) by lia.
  nia.
Qed.

End Magnitudes.

(** ** Moderate inputs never overflow *)

Lemma calculate_projections_returns (years units_sold : list Z)
    (hardware_price hardware_cost subscription_fee subscription_cost
     initial_investment : Z) :
  valid_input years units_sold hardware_price hardware_cost subscription_fee
    subscription_cost initial_investment ->
  moderate_input years units_sold hardware_price hardware_cost
    subscription_fee subscription_cost initial_investment ->
  exists pm roi,
    calculate_projections years units_sold hardware_price hardware_cost
      subscription_fee subscription_cost initial_investment
    = Ok (projection_table years units_sold hardware_price hardware_cost
            subscription_fee subscription_cost pm roi).
Proof.
  intros (Hlen & Hn1 & Hu & Hp & Hc & Hf & Hs & Hi)
         (Mn & Mu & Mp & Mc & Mf & Ms & Mi).
  assert (HB0 : 0 <= 2 ^ 255) by (vm_compute; discriminate).
  assert (HB1 : 2 ^ 255 * 2 ^ 255 + 2 ^ 255 * 2 ^ 255 * 2 ^ 255 < 2 ^ 1023)
    by (vm_compute; reflexivity).
  assert (HB2 : 2 ^ 255 * (2 ^ 255 * 2 ^ 255 + 2 ^ 255 * 2 ^ 255 * 2 ^ 255)
                + 2 ^ 255 < 2 ^ 1023)
    by (vm_compute; reflexivity).
  remember (2 ^ 255) as B eqn:EB in *. remember (2 ^ 1023) as T eqn:ET in *.
  assert (Hunits : Forall (fun x => 0 <= x <= B) units_sold).
  { rewrite Forall_forall in *. intros x Hx.
    specialize (Hu x Hx). specialize (Mu x Hx). cbv beta in *. lia. }
  assert (Hn : Z.of_nat (length units_sold) <= B) by (rewrite <- Hlen; exact Mn).
  assert (Bp : 0 <= hardware_price <= B) by lia.
  assert (Bc : 0 <= hardware_cost <= B) by lia.
  assert (Bf : 0 <= subscription_fee <= B) by lia.
  assert (Bs : 0 <= subscription_cost <= B) by lia.
  set (n := length years).
  set (v := columns units_sold hardware_price hardware_cost subscription_fee
              subscription_cost n).
  assert (Hpm : exists pm,
             Stmt.profit_margin (Var.profit v) (Var.total_revenue v) years
             = Ok pm).
  { apply comprehension_total. intros i Hin. apply in_seq in Hin.
    subst v. cbn [Var.profit Var.total_revenue columns].
    rewrite profit_margin_at_eq by (fold n; lia).
    destruct (Z.gtb_spec
                (total_revenue_at units_sold hardware_price subscription_fee i)
                0) as [Hpos|_]; [|eauto].
    destruct (truediv_in_range
                (profit_at units_sold hardware_price hardware_cost
                   subscription_fee subscription_cost i)
                (total_revenue_at units_sold hardware_price subscription_fee i))
      as (q & Hq).
    - lia.
    - rewrite <- ET.
      pose proof (profit_at_bounded B HB0 units_sold hardware_price
                    hardware_cost subscription_fee subscription_cost Hunits
                    Bp Bc Bf Bs Hn i).
      lia.
    - rewrite Hq. cbn [bind]. eauto. }
  assert (Hroi : exists roi,
             Stmt.roi (Var.cumulative_revenue v) initial_investment years
             = Ok roi).
  { apply comprehension_total. intros i Hin. apply in_seq in Hin.
    subst v. cbn [Var.cumulative_revenue columns].
    rewrite roi_at_eq by (fold n; lia).
    destruct (truediv_in_range
                (cumulative_revenue_at units_sold hardware_price
                   subscription_fee i - initial_investment)
                initial_investment) as (q & Hq).
    - lia.
    - rewrite <- ET.
      assert (Hi' : (i < length units_sold)%nat) by lia.
      pose proof (cumulative_revenue_at_bounded B HB0 units_sold
                    hardware_price subscription_fee Hunits Bp Bf Hn i Hi').
      lia.
    - rewrite Hq. cbn [bind]. eauto. }
  destruct Hpm as (pm & Hpm). destruct Hroi as (roi & Hroi).
  exists pm, roi. now apply calculate_projections_ok.
Qed.

(** ** Prefix sums *)

Lemma sum_firstn_step (l : list Z) (i : nat) :
  Py.sum (firstn (S i) l) = Py.sum (firstn i l) + nth i l 0.
Proof.
  destruct (Nat.lt_ge_cases i (length l)) as [H|H].
  - now apply sum_firstn_succ.
  - rewrite !firstn_all2 by lia. rewrite nth_overflow by exact H. lia.
Qed.

Lemma sum_firstn_sigma (l : list Z) (i : nat) :
  Py.sum (firstn (S i) l) = sigma (fun j => nth j l 0) i.
Proof.
  induction i as [|i IH].
  - rewrite sum_firstn_step, firstn_0, sum_nil. reflexivity.
  - rewrite sum_firstn_step, IH. reflexivity.
Qed.

Lemma installed_base_sigma (units_sold : list Z) (i : nat) :
  installed_base units_sold i = sigma (units_at units_sold) i.
Proof. apply sum_firstn_sigma. Qed.

Lemma prefix_sums_running (l : list Z) (acc : Z) :
  map (fun i => acc + Py.sum (firstn (S i) l)) (seq 0 (length l))
  = running_from acc l.
Proof.
  revert acc. induction l as [|x l IH]; intros acc.
  - reflexivity.
  - cbn [length seq map running_from firstn]. f_equal.
    rewrite <- IH, <- seq_shift, map_map.
    apply map_ext. intros i. rewrite sum_cons. lia.
Qed.

Lemma cumulative_revenue_running (total_revenue : list Z) :
  Stmt.cumulative_revenue total_revenue = running_accumulator total_revenue.
Proof.
  unfold Stmt.cumulative_revenue, running_accumulator, Py.range, Py.slice_to.
  rewrite <- prefix_sums_running.
  apply map_ext. intros i. rewrite Nat.add_1_r. lia.
Qed.

(** ** Entries of the columns *)

Section Entries.

Variables years units_sold : list Z.
Variables hardware_price hardware_cost subscription_fee subscription_cost : Z.

Let n := length years.
Let v :=
  columns units_sold hardware_price hardware_cost subscription_fee
    subscription_cost n.

Hypothesis Hlen : length years = length units_sold.

Variable i : nat.
Hypothesis Hi : (i < n)%nat.

Lemma entry_hardware_revenue :
  nth_error (Var.hardware_revenue v) i
  = Some (hardware_revenue_at units_sold hardware_price i).
Proof.
  subst v. cbn [Var.hardware_revenue columns].
  rewrite <- (hardware_revenue_nth units_sold hardware_price i).
  apply nth_error_nth'. unfold Stmt.hardware_revenue.
  rewrite length_map. lia.
Qed.

Lemma entry_hardware_costs :
  nth_error (Var.hardware_costs v) i
  = Some (hardware_costs_at units_sold hardware_cost i).
Proof.
  subst v. cbn [Var.hardware_costs columns].
  rewrite <- (hardware_costs_nth units_sold hardware_cost i).
  apply nth_error_nth'. unfold Stmt.hardware_costs.
  rewrite length_map. lia.
Qed.

Lemma entry_recurring_revenue :
  nth_error (Var.recurring_revenue v) i
  = Some (recurring_revenue_at units_sold subscription_fee i).
Proof. apply nth_error_map_range. exact Hi. Qed.

Lemma entry_recurring_costs :
  nth_error (Var.recurring_costs v) i
  = Some (recurring_costs_at units_sold subscription_cost i).
Proof. apply nth_error_map_range. exact Hi. Qed.

Lemma entry_total_revenue :
  nth_error (Var.total_revenue v) i
  = Some (total_revenue_at units_sold hardware_price subscription_fee i).
Proof. apply nth_error_map_range. exact Hi. Qed.

Lemma entry_total_costs :
  nth_error (Var.total_costs v) i
  = Some (total_costs_at units_sold hardware_cost subscription_cost i).
Proof. apply nth_error_map_range. exact Hi. Qed.

Lemma entry_profit :
  nth_error (Var.profit v) i
  = Some (profit_at units_sold hardware_price hardware_cost subscription_fee
            subscription_cost i).
Proof. apply nth_error_map_range. exact Hi. Qed.

Lemma entry_cumulative_revenue :
  nth_error (Var.cumulative_revenue v) i
  = Some (cumulative_revenue_at units_sold hardware_price subscription_fee i).
Proof. apply nth_error_map_range. exact Hi. Qed.

Lemma entry_units_sold : nth_error units_sold i = Some (units_at units_sold i).
Proof. apply nth_error_nth'. lia. Qed.

End Entries.

(** ** The table of a successful call *)

Lemma calculate_projections_table (years units_sold : list Z)
    (hardware_price hardware_cost subscription_fee subscription_cost
     initial_investment : Z) (df : DataFrame) :
  calculate_projections years units_sold hardware_price hardware_cost
    subscription_fee subscription_cost initial_investment = Ok df ->
  let v := columns units_sold hardware_price hardware_cost subscription_fee
             subscription_cost (length years) in
  length years = length units_sold
  /\ Year df = years /\ Units_Sold df = units_sold
  /\ Hardware_Revenue df = Var.hardware_revenue v
  /\ Recurring_Revenue df = Var.recurring_revenue v
  /\ Total_Revenue df = Var.total_revenue v
  /\ Total_Costs df = Var.total_costs v
  /\ Profit df = Var.profit v
  /\ Cumulative_Revenue df = Var.cumulative_revenue v
  /\ Stmt.profit_margin (Var.profit v) (Var.total_revenue v) years
     = Ok (Profit_Margin df)
  /\ Stmt.roi (Var.cumulative_revenue v) initial_investment years
     = Ok (ROI df).
Proof.
  intros H. apply calculate_projections_ok_inv in H.
  destruct H as (Hlen & pm & roi & Hpm & Hroi & ->).
  cbn. repeat split; auto.
Qed.

(** ** Signs *)

Lemma total_revenue_at_nonneg (units_sold : list Z)
    (hardware_price subscription_fee : Z) (i : nat) :
  Forall (fun u => 0 <= u) units_sold ->
  0 <= hardware_price -> 0 <= subscription_fee ->
  0 <= total_revenue_at units_sold hardware_price subscription_fee i.
Proof.
  intros Hu Hp Hf.
  unfold total_revenue_at, hardware_revenue_at, recurring_revenue_at.
  assert (0 <= units_at units_sold i).
  { unfold units_at.
    destruct (Nat.lt_ge_cases i (length units_sold)) as [Hi|Hi].
    - rewrite Forall_forall in Hu. apply Hu. now apply nth_In.
    - rewrite nth_overflow by exact Hi. lia. }
  assert (0 <= installed_base units_sold i)
    by (apply sum_nonneg, Forall_firstn, Hu).
  nia.
Qed.

(** ** Validation *)

Lemma calculate_projections_rows (years units_sold : list Z)
    (hardware_price hardware_cost subscription_fee subscription_cost
     initial_investment : Z) (df : DataFrame) :
  calculate_projections years units_sold hardware_price hardware_cost
    subscription_fee subscription_cost initial_investment = Ok df ->
  has_rows df (length years).
Proof.
  intros H. apply calculate_projections_table in H.
  destruct H as (Hlen & Hy & Hu & Hhr & Hrr & Htr & Htc & Hp & Hcr & Hpm & Hroi).
  apply comprehension_length in Hpm, Hroi.
  unfold Py.range in Hpm, Hroi. rewrite length_seq in Hpm, Hroi.
  unfold has_rows.
  rewrite Hy, Hu, Hhr, Hrr, Htr, Htc, Hp, Hcr, Hpm, Hroi.
  cbn [Var.hardware_revenue Var.recurring_revenue Var.total_revenue
       Var.total_costs Var.profit Var.cumulative_revenue columns].
  unfold Stmt.hardware_revenue, Py.range.
  rewrite !length_map, !length_seq. repeat split; auto.
Qed.

Lemma calculate_projections_years_shorter (years units_sold : list Z)
    (hardware_price hardware_cost subscription_fee subscription_cost
     initial_investment : Z) :
  (length years < length units_sold)%nat ->
  exists e,
    calculate_projections years units_sold hardware_price hardware_cost
      subscription_fee subscription_cost initial_investment = Raise e
    /\ e <> IndexError.
Proof.
  intros H. rewrite calculate_projections_unfold by lia.
  set (v := columns _ _ _ _ _ _).
  destruct (Stmt.profit_margin _ _ _) as [pm|e] eqn:Hpm; cbn [bind].
  - destruct (Stmt.roi _ _ _) as [roi|e] eqn:Hroi; cbn [bind].
    + match goal with |- exists e, ?r = _ /\ _ =>
        destruct (DataFrame_inv _ _ _ _ _ _ _ _ _ _ r eq_refl)
          as [(_ & E & _)|E]
      end.
      * lia.
      * rewrite E. exists ValueError. split; [reflexivity | discriminate].
    + exists e. split; [reflexivity|].
      apply comprehension_raise in Hroi. destruct Hroi as (i & Hi & Hr).
      unfold Stmt.roi_at in Hr.
      destruct (Py.index _ i) as [c|e'] eqn:Hc; cbn [bind] in Hr.
      * destruct (Py.truediv _ _) as [q|e''] eqn:Hq; cbn [bind] in Hr;
          [discriminate|].
        injection Hr as ->. apply truediv_raise in Hq.
        destruct Hq as [[_ ->]|[_ ->]]; discriminate.
      * apply in_seq in Hi. subst v. cbn [Var.cumulative_revenue columns] in Hc.
        rewrite (index_lt _ i 0) in Hc; [discriminate|].
        unfold Py.range. rewrite length_map, length_seq. lia.
  - exists e. split; [reflexivity|].
    apply comprehension_raise in Hpm. destruct Hpm as (i & Hi & Hr).
    apply in_seq in Hi. subst v. cbn [Var.profit Var.total_revenue columns] in Hr.
    apply profit_margin_at_raise in Hr; [|lia]. subst e. discriminate.
Qed.

(** ** Rows *)

Lemma row_at_table (years units_sold : list Z)
    (hardware_price hardware_cost subscription_fee subscription_cost
     initial_investment : Z) (df : DataFrame) (i : nat) :
  calculate_projections years units_sold hardware_price hardware_cost
    subscription_fee subscription_cost initial_investment = Ok df ->
  (i < length years)%nat ->
  exists y m x,
    nth_error years i = Some y
    /\ margin_of
         (profit_at units_sold hardware_price hardware_cost subscription_fee
            subscription_cost i)
         (total_revenue_at units_sold hardware_price subscription_fee i)
       = Ok m
    /\ roi_of
         (cumulative_revenue_at units_sold hardware_price subscription_fee i)
         initial_investment
       = Ok x
    /\ row_at df i
       = Some (mkRow y (units_at units_sold i)
                 (hardware_revenue_at units_sold hardware_price i)
                 (recurring_revenue_at units_sold subscription_fee i)
                 (total_revenue_at units_sold hardware_price subscription_fee i)
                 (total_costs_at units_sold hardware_cost subscription_cost i)
                 (profit_at units_sold hardware_price hardware_cost
                    subscription_fee subscription_cost i)
                 m
                 (cumulative_revenue_at units_sold hardware_price
                    subscription_fee i)
                 x).
Proof.
  intros Hdf Hi. apply calculate_projections_table in Hdf.
  destruct Hdf as (Hlen & Hy & Hu & Hhr & Hrr & Htr & Htc & Hp & Hcr & Hpm & Hroi).
  cbn [Var.profit Var.total_revenue Var.cumulative_revenue columns]
    in Hpm, Hroi.
  destruct (comprehension_nth _ _ _ i i Hpm (nth_error_range _ i Hi))
    as (m & Hm & Hmi).
  destruct (comprehension_nth _ _ _ i i Hroi (nth_error_range _ i Hi))
    as (x & Hx & Hxi).
  rewrite profit_margin_at_eq in Hmi by exact Hi.
  rewrite roi_at_eq in Hxi by exact Hi.
  destruct (nth_error years i) as [y|] eqn:Ey;
    [|apply nth_error_None in Ey; lia].
  exists y, m, x.
  split; [reflexivity|]. split; [exact Hmi|]. split; [exact Hxi|].
  unfold row_at.
  rewrite Hy, Hu, Hhr, Hrr, Htr, Htc, Hp, Hcr, Ey, Hm, Hx.
  rewrite (entry_units_sold years units_sold Hlen i Hi).
  rewrite entry_hardware_revenue, entry_recurring_revenue,
    entry_total_revenue, entry_total_costs, entry_profit,
    entry_cumulative_revenue by assumption.
  reflexivity.
Qed.

(** ** Dependence on the past only *)

Section Prefix.

Variables l l' : list Z.
Variable i : nat.
Hypothesis Hprefix : firstn (S i) l' = firstn (S i) l.

Lemma prefix_units_at (j : nat) :
  (j <= i)%nat -> units_at l' j = units_at l j.
Proof.
  intros Hj. unfold units_at.
  assert (E : forall k : list Z, nth j k 0 = nth j (firstn (S i) k) 0).
  { intros k. rewrite nth_firstn.
    destruct (Nat.ltb_spec j (S i)); [reflexivity | lia]. }
  rewrite (E l), (E l'), Hprefix. reflexivity.
Qed.

Lemma prefix_installed_base (j : nat) :
  (j <= i)%nat -> installed_base l' j = installed_base l j.
Proof.
  intros Hj. unfold installed_base.
  assert (E : forall k : list Z,
            firstn (S j) k = firstn (S j) (firstn (S i) k)).
  { intros k. rewrite firstn_firstn. f_equal. lia. }
  rewrite (E l), (E l'), Hprefix. reflexivity.
Qed.

Variables hardware_price hardware_cost subscription_fee subscription_cost : Z.

Lemma prefix_total_revenue_at (j : nat) :
  (j <= i)%nat ->
  total_revenue_at l' hardware_price subscription_fee j
  = total_revenue_at l hardware_price subscription_fee j.
Proof.
  intros Hj. unfold total_revenue_at, hardware_revenue_at, recurring_revenue_at.
  now rewrite prefix_units_at, prefix_installed_base.
Qed.

Lemma prefix_total_costs_at (j : nat) :
  (j <= i)%nat ->
  total_costs_at l' hardware_cost subscription_cost j
  = total_costs_at l hardware_cost subscription_cost j.
Proof.
  intros Hj. unfold total_costs_at, hardware_costs_at, recurring_costs_at.
  now rewrite prefix_units_at, prefix_installed_base.
Qed.

Lemma prefix_profit_at (j : nat) :
  (j <= i)%nat ->
  profit_at l' hardware_price hardware_cost subscription_fee
    subscription_cost j
  = profit_at l hardware_price hardware_cost subscription_fee
      subscription_cost j.
Proof.
  intros Hj. unfold profit_at.
  now rewrite prefix_total_revenue_at, prefix_total_costs_at.
Qed.

Lemma prefix_cumulative_revenue_at (j : nat) :
  (j <= i)%nat ->
  cumulative_revenue_at l' hardware_price subscription_fee j
  = cumulative_revenue_at l hardware_price subscription_fee j.
Proof.
  intros Hj. unfold cumulative_revenue_at. f_equal.
  apply map_ext_in. intros k Hk. apply in_seq in Hk.
  apply prefix_total_revenue_at. lia.
Qed.

End Prefix.

Lemma prefix_length {A : Type} (l l' : list A) (i : nat) :
  firstn (S i) l' = firstn (S i) l ->
  (i < length l)%nat -> (i < length l')%nat.
Proof.
  intros H Hi. apply (f_equal (@length A)) in H.
  rewrite !length_firstn in H. lia.
Qed.

Lemma prefix_nth_error {A : Type} (l l' : list A) (i : nat) :
  firstn (S i) l' = firstn (S i) l -> nth_error l' i = nth_error l i.
Proof.
  intros H.
  assert (E : forall k : list A, nth_error k i = nth_error (firstn (S i) k) i).
  { intros k. rewrite nth_error_firstn.
    destruct (Nat.ltb_spec i (S i)); [reflexivity | lia]. }
  rewrite (E l), (E l'), H. reflexivity.
Qed.

(** Two calls whose sequences agree up to year [i] return the same row [i]. *)
Lemma row_at_prefix (years units_sold years' units_sold' : list Z)
    (hardware_price hardware_cost subscription_fee subscription_cost
     initial_investment : Z) (df df' : DataFrame) (i : nat) :
  calculate_projections years units_sold hardware_price hardware_cost
    subscription_fee subscription_cost initial_investment = Ok df ->
  calculate_projections years' units_sold' hardware_price hardware_cost
    subscription_fee subscription_cost initial_investment = Ok df' ->
  (i < length years)%nat ->
  firstn (S i) years' = firstn (S i) years ->
  firstn (S i) units_sold' = firstn (S i) units_sold ->
  row_at df' i = row_at df i.
Proof.
  intros Hdf Hdf' Hi Hy Hu.
  pose proof (prefix_length _ _ _ Hy Hi) as Hi'.
  destruct (row_at_table _ _ _ _ _ _ _ _ i Hdf Hi)
    as (y & m & x & Ey & Em & Ex & ->).
  destruct (row_at_table _ _ _ _ _ _ _ _ i Hdf' Hi')
    as (y' & m' & x' & Ey' & Em' & Ex' & ->).
  rewrite (prefix_nth_error _ _ _ Hy), Ey in Ey'. injection Ey' as <-.
  rewrite (prefix_profit_at _ _ _ Hu), (prefix_total_revenue_at _ _ _ Hu),
    Em in Em' by lia.
  injection Em' as <-.
  rewrite (prefix_cumulative_revenue_at _ _ _ Hu), Ex in Ex' by lia.
  injection Ex' as <-.
  rewrite (prefix_units_at _ _ _ Hu), (prefix_total_revenue_at _ _ _ Hu),
    (prefix_total_costs_at _ _ _ Hu), (prefix_profit_at _ _ _ Hu),
    (prefix_cumulative_revenue_at _ _ _ Hu) by lia.
  unfold hardware_revenue_at, recurring_revenue_at.
  rewrite (prefix_units_at _ _ _ Hu), (prefix_installed_base _ _ _ Hu) by lia.
  reflexivity.
Qed.

(** A call that returns still returns when cut down to its first years. *)
Lemma calculate_projections_truncated (years units_sold : list Z)
    (hardware_price hardware_cost subscription_fee subscription_cost
     initial_investment : Z) (df : DataFrame) (i : nat) :
  calculate_projections years units_sold hardware_price hardware_cost
    subscription_fee subscription_cost initial_investment = Ok df ->
  (i < length years)%nat ->
  exists df',
    calculate_projections (firstn (S i) years) (firstn (S i) units_sold)
      hardware_price hardware_cost subscription_fee subscription_cost
      initial_investment = Ok df'.
Proof.
  intros Hdf Hi.
  pose proof (calculate_projections_table _ _ _ _ _ _ _ _ Hdf) as (Hlen & _).
  assert (Hk : length (firstn (S i) years) = S i)
    by (rewrite length_firstn; lia).
  assert (Hu : firstn (S i) (firstn (S i) units_sold)
               = firstn (S i) units_sold)
    by (rewrite firstn_firstn; f_equal; lia).
  assert (Hpm : exists pm,
            Stmt.profit_margin
              (Var.profit
                 (columns (firstn (S i) units_sold) hardware_price
                    hardware_cost subscription_fee subscription_cost
                    (length (firstn (S i) years))))
              (Var.total_revenue
                 (columns (firstn (S i) units_sold) hardware_price
                    hardware_cost subscription_fee subscription_cost
                    (length (firstn (S i) years))))
              (firstn (S i) years) = Ok pm).
  { apply comprehension_total. intros j Hj. apply in_seq in Hj.
    cbn [Var.profit Var.total_revenue columns].
    rewrite profit_margin_at_eq by lia.
    rewrite (prefix_profit_at _ _ i Hu), (prefix_total_revenue_at _ _ i Hu)
      by lia.
    destruct (row_at_table _ _ _ _ _ _ _ _ j Hdf ltac:(lia))
      as (_ & m & _ & _ & Em & _).
    exists m. exact Em. }
  assert (Hroi : exists roi,
            Stmt.roi
              (Var.cumulative_revenue
                 (columns (firstn (S i) units_sold) hardware_price
                    hardware_cost subscription_fee subscription_cost
                    (length (firstn (S i) years))))
              initial_investment (firstn (S i) years) = Ok roi).
  { apply comprehension_total. intros j Hj. apply in_seq in Hj.
    cbn [Var.cumulative_revenue columns].
    rewrite roi_at_eq by lia.
    rewrite (prefix_cumulative_revenue_at _ _ i Hu) by lia.
    destruct (row_at_table _ _ _ _ _ _ _ _ j Hdf ltac:(lia))
      as (_ & _ & x & _ & _ & Ex & _).
    exists x. exact Ex. }
  destruct Hpm as (pm & Hpm). destruct Hroi as (roi & Hroi).
  eexists. apply (calculate_projections_ok _ _ _ _ _ _ _ pm roi);
    [|exact Hpm|exact Hroi].
  rewrite !length_firstn. lia.
Qed.

(** * The properties of the specification *)

(** C1.  With as many years as unit counts, the recurring revenue of year
    [i] is the sum of the units sold in the years [0] to [i] times the
    subscription fee, and the recurring cost of year [i] is the same sum
    times the subscription cost: both accrue on the whole installed base.
    The returned table shows the recurring revenue, and the recurring cost
    as a part of the total costs. *)
Theorem recurring_on_installed_base (years units_sold : list Z)
    (hardware_price hardware_cost subscription_fee subscription_cost : Z)
    (i : nat) :
  length years = length units_sold ->
  (i < length years)%nat ->
  exists v,
    integer_columns years units_sold hardware_price hardware_cost
      subscription_fee subscription_cost = Ok v
    /\ nth_error (Var.recurring_revenue v) i
       = Some (sigma (units_at units_sold) i * subscription_fee)
    /\ nth_error (Var.recurring_costs v) i
       = Some (sigma (units_at units_sold) i * subscription_cost)
    /\ forall initial_investment df,
         calculate_projections years units_sold hardware_price hardware_cost
           subscription_fee subscription_cost initial_investment = Ok df ->
         nth_error (Recurring_Revenue df) i
         = Some (sigma (units_at units_sold) i * subscription_fee)
         /\ nth_error (Total_Costs df) i
            = Some (units_at units_sold i * hardware_cost
                    + sigma (units_at units_sold) i * subscription_cost).
Proof.
  intros Hlen Hi. eexists. split.
  - apply integer_columns_eq. lia.
  - rewrite <- installed_base_sigma.
    split; [now apply entry_recurring_revenue|].
    split; [now apply entry_recurring_costs|].
    intros inv df Hdf. apply calculate_projections_table in Hdf.
    destruct Hdf as (_ & _ & _ & _ & Hrr & _ & Htc & _).
    rewrite Hrr, Htc.
    split; [now apply entry_recurring_revenue | now apply entry_total_costs].
Qed.

(** Three years selling 100, 50 and 25 units: the third year's recurring
    revenue is that of 175 units. *)
Lemma recurring_on_installed_base_witness :
  length [1; 2; 3] = length [100; 50; 25]
  /\ (2 < length [1; 2; 3])%nat
  /\ sigma (units_at [100; 50; 25]) 2 = 175
  /\ (exists df,
        calculate_projections [1; 2; 3] [100; 50; 25] 15000 11000 2000 500
          6000000 = Ok df)
  /\ exists v,
       integer_columns [1; 2; 3] [100; 50; 25] 15000 11000 2000 500 = Ok v
       /\ nth_error (Var.recurring_revenue v) 2
          = Some (sigma (units_at [100; 50; 25]) 2 * 2000)
       /\ nth_error (Var.recurring_costs v) 2
          = Some (sigma (units_at [100; 50; 25]) 2 * 500)
       /\ forall initial_investment df,
            calculate_projections [1; 2; 3] [100; 50; 25] 15000 11000 2000
              500 initial_investment = Ok df ->
            nth_error (Recurring_Revenue df) 2
            = Some (sigma (units_at [100; 50; 25]) 2 * 2000)
            /\ nth_error (Total_Costs df) 2
               = Some (units_at [100; 50; 25] 2 * 11000
                       + sigma (units_at [100; 50; 25]) 2 * 500).
Proof.
  split; [reflexivity|]. split; [simpl; lia|]. split; [reflexivity|].
  split; [eexists; vm_compute; reflexivity|].
  apply (recurring_on_installed_base [1; 2; 3] [100; 50; 25]
           15000 11000 2000 500 2%nat).
  - reflexivity.
  - simpl. lia.
Defined.

(** C2.  For a valid input, the profit margin of a year whose total revenue
    is zero is the integer [0], computed without a division: no exception,
    no NaN.  In every other year it is the float
    [profit / total_revenue * 100], and that division is not a division by
    zero.  The returned table shows these values. *)
Theorem profit_margin_guarded (years units_sold : list Z)
    (hardware_price hardware_cost subscription_fee subscription_cost : Z)
    (i : nat) :
  length years = length units_sold ->
  Forall (fun u => 0 <= u) units_sold ->
  0 <= hardware_price -> 0 <= subscription_fee ->
  (i < length years)%nat ->
  let p := profit_at units_sold hardware_price hardware_cost subscription_fee
             subscription_cost i in
  let r := total_revenue_at units_sold hardware_price subscription_fee i in
  exists v,
    integer_columns years units_sold hardware_price hardware_cost
      subscription_fee subscription_cost = Ok v
    /\ nth_error (Var.profit v) i = Some p
    /\ nth_error (Var.total_revenue v) i = Some r
    /\ (r = 0 ->
        Stmt.profit_margin_at (Var.profit v) (Var.total_revenue v) i
        = Ok (Py.Int 0))
    /\ (r <> 0 ->
        Stmt.profit_margin_at (Var.profit v) (Var.total_revenue v) i
        = (q <- Py.truediv p r ;; Ok (Py.Float (Py.fmul_int q 100)))
        /\ Py.truediv p r <> Raise ZeroDivisionError)
    /\ forall initial_investment df,
         calculate_projections years units_sold hardware_price hardware_cost
           subscription_fee subscription_cost initial_investment = Ok df ->
         (r = 0 -> nth_error (Profit_Margin df) i = Some (Py.Int 0))
         /\ (r <> 0 ->
             exists q, Py.truediv p r = Ok q
               /\ nth_error (Profit_Margin df) i
                  = Some (Py.Float (Py.fmul_int q 100))).
Proof.
  intros Hlen Hu Hp Hf Hi.
  set (n := length years).
  set (P := profit_at units_sold hardware_price hardware_cost subscription_fee
              subscription_cost).
  set (TR := total_revenue_at units_sold hardware_price subscription_fee).
  cbv zeta.
  exists (columns units_sold hardware_price hardware_cost subscription_fee
            subscription_cost n).
  split; [apply integer_columns_eq; lia|].
  split; [now apply entry_profit|].
  split; [now apply entry_total_revenue|].
  cbn [Var.profit Var.total_revenue columns]. fold P. fold TR.
  pose proof (total_revenue_at_nonneg units_sold hardware_price
                subscription_fee i Hu Hp Hf) as Hnn. fold TR in Hnn.
  assert (Hat : Stmt.profit_margin_at (map P (Py.range n))
                  (map TR (Py.range n)) i
                = margin_of (P i) (TR i))
    by now apply profit_margin_at_eq.
  unfold margin_of in Hat.
  split; [|split; [|intros inv df Hdf]].
  - intros E. rewrite Hat, E. reflexivity.
  - intros Hne. split.
    + rewrite Hat. destruct (Z.gtb_spec (TR i) 0); [reflexivity | lia].
    + intros Hz. apply truediv_raise in Hz.
      destruct Hz as [[Hz _]|[_ Hz]]; [contradiction | discriminate].
  - apply calculate_projections_table in Hdf.
    destruct Hdf as (_ & _ & _ & _ & _ & _ & _ & _ & _ & Hpm & _).
    cbn [Var.profit Var.total_revenue columns] in Hpm. fold n P TR in Hpm.
    destruct (comprehension_nth _ _ _ i i Hpm) as (m & Hm & Hmi).
    { now apply nth_error_range. }
    rewrite Hat in Hmi. split.
    + intros E. rewrite E in Hmi. cbn in Hmi. injection Hmi as <-. exact Hm.
    + intros Hne. destruct (Z.gtb_spec (TR i) 0); [|lia].
      destruct (Py.truediv (P i) (TR i)) as [q|e]; [|discriminate].
      cbn [bind] in Hmi. injection Hmi as <-. exists q.
      split; [reflexivity | exact Hm].
Qed.

(** No unit is sold in the first year of two: its total revenue is zero and
    its margin the integer [0]. *)
Lemma profit_margin_guarded_witness :
  length [1; 2] = length [0; 100]
  /\ Forall (fun u => 0 <= u) [0; 100]
  /\ 0 <= 15000 /\ 0 <= 2000
  /\ (0 < length [1; 2])%nat
  /\ total_revenue_at [0; 100] 15000 2000 0 = 0
  /\ (exists df,
        calculate_projections [1; 2] [0; 100] 15000 11000 2000 500 6000000
        = Ok df)
  /\ let p := profit_at [0; 100] 15000 11000 2000 500 0 in
     let r := total_revenue_at [0; 100] 15000 2000 0 in
     exists v,
       integer_columns [1; 2] [0; 100] 15000 11000 2000 500 = Ok v
       /\ nth_error (Var.profit v) 0 = Some p
       /\ nth_error (Var.total_revenue v) 0 = Some r
       /\ (r = 0 ->
           Stmt.profit_margin_at (Var.profit v) (Var.total_revenue v) 0
           = Ok (Py.Int 0))
       /\ (r <> 0 ->
           Stmt.profit_margin_at (Var.profit v) (Var.total_revenue v) 0
           = (q <- Py.truediv p r ;; Ok (Py.Float (Py.fmul_int q 100)))
           /\ Py.truediv p r <> Raise ZeroDivisionError)
       /\ forall initial_investment df,
            calculate_projections [1; 2] [0; 100] 15000 11000 2000 500
              initial_investment = Ok df ->
            (r = 0 -> nth_error (Profit_Margin df) 0 = Some (Py.Int 0))
            /\ (r <> 0 ->
                exists q, Py.truediv p r = Ok q
                  /\ nth_error (Profit_Margin df) 0
                     = Some (Py.Float (Py.fmul_int q 100))).
Proof.
  split; [reflexivity|].
  split; [repeat constructor; lia|].
  split; [lia|]. split; [lia|]. split; [simpl; lia|].
  split; [reflexivity|].
  split; [eexists; vm_compute; reflexivity|].
  apply (profit_margin_guarded [1; 2] [0; 100] 15000 11000 2000 500 0%nat).
  - reflexivity.
  - repeat constructor; lia.
  - lia.
  - lia.
  - simpl. lia.
Defined.

(** C3.  With as many years as unit counts and at least one year:

    - for a positive initial investment, the ROI of year [i] is the float
      [(cumulative_revenue[i] - initial_investment) / initial_investment
      * 100], that division is not a division by zero, and the returned
      table shows this value;
    - for a zero initial investment the ROI statement raises
      [ZeroDivisionError], and the call raises an exception
      ([ZeroDivisionError], unless a profit margin raised [OverflowError]
      before): it returns no table, complete or partial. *)
Theorem roi_formula_and_zero_investment (years units_sold : list Z)
    (hardware_price hardware_cost subscription_fee subscription_cost : Z) :
  length years = length units_sold ->
  (1 <= length years)%nat ->
  exists v,
    integer_columns years units_sold hardware_price hardware_cost
      subscription_fee subscription_cost = Ok v
    /\ (forall initial_investment i,
          0 < initial_investment -> (i < length years)%nat ->
          exists c,
            nth_error (Var.cumulative_revenue v) i = Some c
            /\ Stmt.roi_at (Var.cumulative_revenue v) initial_investment i
               = (q <- Py.truediv (c - initial_investment)
                         initial_investment ;;
                  Ok (Py.fmul_int q 100))
            /\ Py.truediv (c - initial_investment) initial_investment
               <> Raise ZeroDivisionError
            /\ forall df,
                 calculate_projections years units_sold hardware_price
                   hardware_cost subscription_fee subscription_cost
                   initial_investment = Ok df ->
                 exists q,
                   Py.truediv (c - initial_investment) initial_investment
                   = Ok q
                   /\ nth_error (ROI df) i = Some (Py.fmul_int q 100))
    /\ Stmt.roi (Var.cumulative_revenue v) 0 years = Raise ZeroDivisionError
    /\ exists e,
         calculate_projections years units_sold hardware_price hardware_cost
           subscription_fee subscription_cost 0 = Raise e
         /\ (e = ZeroDivisionError \/ e = OverflowError).
Proof.
  intros Hlen Hn.
  set (n := length years).
  set (CR := cumulative_revenue_at units_sold hardware_price subscription_fee).
  eexists. split; [apply integer_columns_eq; lia|].
  cbn [Var.cumulative_revenue columns]. fold n. fold CR.
  assert (Hzero : Stmt.roi (map CR (Py.range n)) 0 years
                  = Raise ZeroDivisionError).
  { unfold Stmt.roi, Py.range. fold n.
    apply comprehension_seq_first_raise with (k := 0%nat).
    - lia.
    - intros i Hi. lia.
    - apply roi_at_zero; [lia | reflexivity]. }
  split; [|split; [exact Hzero|]].
  - intros inv i Hinv Hi. exists (CR i).
    split; [now apply nth_error_map_range|].
    split; [now apply roi_at_eq|].
    split.
    + intros Hz. apply truediv_raise in Hz.
      destruct Hz as [[Hz _]|[_ Hz]]; [lia | discriminate].
    + intros df Hdf. apply calculate_projections_table in Hdf.
      destruct Hdf as (_ & _ & _ & _ & _ & _ & _ & _ & _ & _ & Hroi).
      cbn [Var.cumulative_revenue columns] in Hroi. fold n CR in Hroi.
      destruct (comprehension_nth _ _ _ i i Hroi) as (x & Hx & Hxi).
      { now apply nth_error_range. }
      rewrite roi_at_eq in Hxi by exact Hi.
      destruct (Py.truediv (CR i - inv) inv) as [q|e]; [|discriminate].
      cbn [bind] in Hxi. injection Hxi as <-. exists q.
      split; [reflexivity | exact Hx].
  - destruct (calculate_projections years units_sold hardware_price
                hardware_cost subscription_fee subscription_cost 0)
      as [df|e] eqn:Hcall.
    + apply calculate_projections_table in Hcall.
      destruct Hcall as (_ & _ & _ & _ & _ & _ & _ & _ & _ & _ & Hroi).
      cbn [Var.cumulative_revenue columns] in Hroi. fold n CR in Hroi.
      rewrite Hzero in Hroi. discriminate.
    + exists e. split; [reflexivity|].
      apply calculate_projections_raise in Hcall; [|exact Hlen].
      destruct Hcall as [->|(-> & _)]; auto.
Qed.

(** The two-year scenario: it returns for an investment of 6000000 and
    raises [ZeroDivisionError] for an investment of zero. *)
Lemma roi_formula_and_zero_investment_witness :
  length [1; 2] = length [100; 100]
  /\ (1 <= length [1; 2])%nat
  /\ (exists df,
        calculate_projections [1; 2] [100; 100] 15000 11000 2000 500 6000000
        = Ok df)
  /\ calculate_projections [1; 2] [100; 100] 15000 11000 2000 500 0
     = Raise ZeroDivisionError
  /\ exists v,
       integer_columns [1; 2] [100; 100] 15000 11000 2000 500 = Ok v
       /\ (forall initial_investment i,
             0 < initial_investment -> (i < length [1; 2])%nat ->
             exists c,
               nth_error (Var.cumulative_revenue v) i = Some c
               /\ Stmt.roi_at (Var.cumulative_revenue v) initial_investment i
                  = (q <- Py.truediv (c - initial_investment)
                            initial_investment ;;
                     Ok (Py.fmul_int q 100))
               /\ Py.truediv (c - initial_investment) initial_investment
                  <> Raise ZeroDivisionError
               /\ forall df,
                    calculate_projections [1; 2] [100; 100] 15000 11000 2000
                      500 initial_investment = Ok df ->
                    exists q,
                      Py.truediv (c - initial_investment) initial_investment
                      = Ok q
                      /\ nth_error (ROI df) i = Some (Py.fmul_int q 100))
       /\ Stmt.roi (Var.cumulative_revenue v) 0 [1; 2]
          = Raise ZeroDivisionError
       /\ exists e,
            calculate_projections [1; 2] [100; 100] 15000 11000 2000 500 0
            = Raise e
            /\ (e = ZeroDivisionError \/ e = OverflowError).
Proof.
  split; [reflexivity|]. split; [simpl; lia|].
  split; [eexists; vm_compute; reflexivity|].
  split; [vm_compute; reflexivity|].
  apply (roi_formula_and_zero_investment [1; 2] [100; 100]
           15000 11000 2000 500).
  - reflexivity.
  - simpl. lia.
Defined.

(** C4, as the specification states it, fails: a negative hardware price
    and an empty pair of sequences are invalid inputs, and neither call is
    rejected.  The first returns a table with a negative hardware revenue,
    the second a table without rows. *)
Lemma invalid_input_not_rejected :
  (invalid_input [1] [100] (-15000) 11000 2000 500
   /\ ~ rejected
        (calculate_projections [1] [100] (-15000) 11000 2000 500 6000000)
   /\ exists df,
        calculate_projections [1] [100] (-15000) 11000 2000 500 6000000
        = Ok df
        /\ Hardware_Revenue df = [-1500000])
  /\ (invalid_input [] [] 15000 11000 2000 500
      /\ ~ rejected
           (calculate_projections [] [] 15000 11000 2000 500 6000000)
      /\ exists df,
           calculate_projections [] [] 15000 11000 2000 500 6000000 = Ok df
           /\ has_rows df 0).
Proof.
  split.
  - split; [right; left; lia|].
    split.
    + intros (e & He). vm_compute in He. discriminate.
    + eexists. split; [vm_compute; reflexivity | reflexivity].
  - split; [do 5 right; reflexivity|].
    split.
    + intros (e & He). vm_compute in He. discriminate.
    + eexists. split; [vm_compute; reflexivity|].
      unfold has_rows. cbn. repeat split.
Qed.

(** C4, amended.  [calculate_projections] checks none of its inputs
    before it computes.  Sequences of different lengths do make the call
    fail, but in the course of the computation: with more years than unit
    counts the recurring-revenue comprehension raises [IndexError], with
    fewer the call raises another exception, at the latest when the table is
    built from columns of different lengths.  With as many years as unit
    counts nothing is rejected for its sign or for being empty: unless the
    initial investment is zero while there is a year, the call returns a
    table with one row per year or raises [OverflowError]; and an empty call
    returns the empty table. *)
Theorem validation_left_to_caller (years units_sold : list Z)
    (hardware_price hardware_cost subscription_fee subscription_cost
     initial_investment : Z) :
  let call :=
    calculate_projections years units_sold hardware_price hardware_cost
      subscription_fee subscription_cost initial_investment in
  ((length units_sold < length years)%nat -> call = Raise IndexError)
  /\ ((length years < length units_sold)%nat ->
      exists e, call = Raise e /\ e <> IndexError)
  /\ (length years = length units_sold ->
      initial_investment <> 0 \/ years = [] ->
      call = Raise OverflowError
      \/ exists df, call = Ok df /\ has_rows df (length years))
  /\ (years = [] -> units_sold = [] ->
      call = Ok (mkDataFrame [] [] [] [] [] [] [] [] [] [])).
Proof.
  intros call. split; [|split; [|split]].
  - apply calculate_projections_years_longer.
  - apply calculate_projections_years_shorter.
  - intros Hlen Hinv. destruct call as [df|e] eqn:Hcall.
    + right. exists df. split; [reflexivity|].
      now apply calculate_projections_rows in Hcall.
    + left. apply calculate_projections_raise in Hcall; [|exact Hlen].
      destruct Hcall as [->|(_ & H0 & Hy)]; [reflexivity|].
      destruct Hinv; contradiction.
  - intros -> ->. reflexivity.
Qed.

(** One call for each of the four cases: a year too many, a unit count too
    many, matching lengths with a negative price, and no year at all. *)
Lemma validation_left_to_caller_witness :
  calculate_projections [1; 2] [100] 15000 11000 2000 500 6000000
  = Raise IndexError
  /\ (exists e,
        calculate_projections [1] [100; 100] 15000 11000 2000 500 6000000
        = Raise e
        /\ e <> IndexError)
  /\ (calculate_projections [1; 2] [100; 100] (-15000) 11000 2000 500 6000000
      = Raise OverflowError
      \/ exists df,
           calculate_projections [1; 2] [100; 100] (-15000) 11000 2000 500
             6000000 = Ok df
           /\ has_rows df (length [1; 2]))
  /\ calculate_projections [] [] 15000 11000 2000 500 0
     = Ok (mkDataFrame [] [] [] [] [] [] [] [] [] []).
Proof.
  split; [|split; [|split]].
  - apply (validation_left_to_caller [1; 2] [100] 15000 11000 2000 500
             6000000).
    simpl. lia.
  - apply (validation_left_to_caller [1] [100; 100] 15000 11000 2000 500
             6000000).
    simpl. lia.
  - apply (validation_left_to_caller [1; 2] [100; 100] (-15000) 11000 2000
             500 6000000).
    + reflexivity.
    + left. lia.
  - apply (validation_left_to_caller [] [] 15000 11000 2000 500 0);
      reflexivity.
Defined.

(** C5.  For a valid input the call returns a table, unless a margin or an
    ROI leaves the float range ([OverflowError]); it always returns one when
    the input is of moderate size.  The returned table has one row per
    input year, its year and unit columns are the input sequences in their
    order, and row [i] depends on the years and unit counts up to index [i]
    only: the call cut down to its first [i + 1] years returns the same
    row [i], and so does every call whose sequences agree with this one up
    to index [i]. *)
Theorem rows_in_order_and_causal (years units_sold : list Z)
    (hardware_price hardware_cost subscription_fee subscription_cost
     initial_investment : Z) :
  valid_input years units_sold hardware_price hardware_cost subscription_fee
    subscription_cost initial_investment ->
  let call ys us :=
    calculate_projections ys us hardware_price hardware_cost subscription_fee
      subscription_cost initial_investment in
  (moderate_input years units_sold hardware_price hardware_cost
     subscription_fee subscription_cost initial_investment ->
   exists df, call years units_sold = Ok df)
  /\ (call years units_sold = Raise OverflowError
      \/ exists df, call years units_sold = Ok df)
  /\ forall df,
       call years units_sold = Ok df ->
       has_rows df (length years)
       /\ Year df = years
       /\ Units_Sold df = units_sold
       /\ forall i,
            (i < length years)%nat ->
            (exists row, row_at df i = Some row)
            /\ (exists df',
                  call (firstn (S i) years) (firstn (S i) units_sold) = Ok df'
                  /\ row_at df' i = row_at df i)
            /\ forall years' units_sold' df',
                 firstn (S i) years' = firstn (S i) years ->
                 firstn (S i) units_sold' = firstn (S i) units_sold ->
                 call years' units_sold' = Ok df' ->
                 row_at df' i = row_at df i.
Proof.
  intros Hvalid call. split; [|split].
  - intros Hmod.
    destruct (calculate_projections_returns _ _ _ _ _ _ _ Hvalid Hmod)
      as (pm & roi & H).
    eexists. exact H.
  - destruct Hvalid as (Hlen & _ & _ & _ & _ & _ & _ & Hinv).
    destruct (call years units_sold) as [df|e] eqn:Hcall.
    + right. eauto.
    + left. apply calculate_projections_raise in Hcall; [|exact Hlen].
      destruct Hcall as [->|(_ & H0 & _)]; [reflexivity | lia].
  - intros df Hdf.
    split; [now apply calculate_projections_rows in Hdf|].
    pose proof (calculate_projections_table _ _ _ _ _ _ _ _ Hdf)
      as (_ & Hy & Hu & _).
    split; [exact Hy|]. split; [exact Hu|].
    intros i Hi. split; [|split].
    + destruct (row_at_table _ _ _ _ _ _ _ _ i Hdf Hi)
        as (y & m & x & _ & _ & _ & Hrow).
      eexists. exact Hrow.
    + destruct (calculate_projections_truncated _ _ _ _ _ _ _ _ i Hdf Hi)
        as (df' & Hdf').
      exists df'. split; [exact Hdf'|].
      apply (row_at_prefix _ _ _ _ _ _ _ _ _ _ _ i Hdf Hdf' Hi).
      * rewrite firstn_firstn. f_equal. lia.
      * rewrite firstn_firstn. f_equal. lia.
    + intros years' units_sold' df' Ey Eu Hdf'.
      exact (row_at_prefix _ _ _ _ _ _ _ _ _ _ _ i Hdf Hdf' Hi Ey Eu).
Qed.

(** The two-year scenario is valid and moderate; a three-year call that
    agrees with it on the first two years returns as well. *)
Lemma rows_in_order_and_causal_witness :
  valid_input [1; 2] [100; 100] 15000 11000 2000 500 6000000
  /\ moderate_input [1; 2] [100; 100] 15000 11000 2000 500 6000000
  /\ (1 < length [1; 2])%nat
  /\ firstn 2 [1; 2; 3] = firstn 2 [1; 2]
  /\ firstn 2 [100; 100; 7] = firstn 2 [100; 100]
  /\ (exists df',
        calculate_projections [1; 2; 3] [100; 100; 7] 15000 11000 2000 500
          6000000 = Ok df')
  /\ let call ys us :=
       calculate_projections ys us 15000 11000 2000 500 6000000 in
     (moderate_input [1; 2] [100; 100] 15000 11000 2000 500 6000000 ->
      exists df, call [1; 2] [100; 100] = Ok df)
     /\ (call [1; 2] [100; 100] = Raise OverflowError
         \/ exists df, call [1; 2] [100; 100] = Ok df)
     /\ forall df,
          call [1; 2] [100; 100] = Ok df ->
          has_rows df (length [1; 2])
          /\ Year df = [1; 2]
          /\ Units_Sold df = [100; 100]
          /\ forall i,
               (i < length [1; 2])%nat ->
               (exists row, row_at df i = Some row)
               /\ (exists df',
                     call (firstn (S i) [1; 2]) (firstn (S i) [100; 100])
                     = Ok df'
                     /\ row_at df' i = row_at df i)
               /\ forall years' units_sold' df',
                    firstn (S i) years' = firstn (S i) [1; 2] ->
                    firstn (S i) units_sold' = firstn (S i) [100; 100] ->
                    call years' units_sold' = Ok df' ->
                    row_at df' i = row_at df i.
Proof.
  assert (Hvalid : valid_input [1; 2] [100; 100] 15000 11000 2000 500 6000000).
  { unfold valid_input.
    repeat split; try lia; try reflexivity; try (simpl; lia).
    repeat constructor; lia. }
  split; [exact Hvalid|].
  split.
  { unfold moderate_input.
    split; [vm_compute; discriminate|].
    split; [repeat constructor; vm_compute; discriminate|].
    repeat split; vm_compute; discriminate. }
  split; [simpl; lia|]. split; [reflexivity|]. split; [reflexivity|].
  split; [eexists; vm_compute; reflexivity|].
  exact (rows_in_order_and_causal [1; 2] [100; 100] 15000 11000 2000 500
           6000000 Hvalid).
Defined.

(** C6.  With as many years as unit counts, the cumulative revenue of year
    [i] is the sum of the total revenues of the years [0] to [i]; its last
    entry is the sum of the whole total-revenue column; and the column is
    the one the running accumulator [acc[i] = acc[i-1] + total_revenue[i]]
    produces.  The returned table shows both columns. *)
Theorem cumulative_revenue_prefix_sums (years units_sold : list Z)
    (hardware_price hardware_cost subscription_fee subscription_cost : Z) :
  length years = length units_sold ->
  exists v,
    integer_columns years units_sold hardware_price hardware_cost
      subscription_fee subscription_cost = Ok v
    /\ length (Var.total_revenue v) = length years
    /\ (forall i, (i < length years)%nat ->
          nth_error (Var.cumulative_revenue v) i
          = Some (sigma (fun j => nth j (Var.total_revenue v) 0) i))
    /\ (forall k, length years = S k ->
          nth_error (Var.cumulative_revenue v) k
          = Some (Py.sum (Var.total_revenue v)))
    /\ Var.cumulative_revenue v = running_accumulator (Var.total_revenue v)
    /\ forall initial_investment df,
         calculate_projections years units_sold hardware_price hardware_cost
           subscription_fee subscription_cost initial_investment = Ok df ->
         Total_Revenue df = Var.total_revenue v
         /\ Cumulative_Revenue df = Var.cumulative_revenue v.
Proof.
  intros Hlen. eexists. split; [apply integer_columns_eq; lia|].
  set (n := length years).
  set (TR := total_revenue_at units_sold hardware_price subscription_fee).
  assert (Hcr : forall i, (i < n)%nat ->
            nth_error
              (map (cumulative_revenue_at units_sold hardware_price
                      subscription_fee) (Py.range n)) i
            = Some (Py.sum (firstn (S i) (map TR (Py.range n))))).
  { intros i Hi. unfold Py.range.
    rewrite nth_error_map_range by exact Hi.
    rewrite firstn_map_range by lia. reflexivity. }
  cbn [Var.total_revenue Var.cumulative_revenue columns].
  split; [unfold Py.range; now rewrite length_map, length_seq|].
  split; [|split; [|split]].
  - intros i Hi. rewrite Hcr by exact Hi. now rewrite sum_firstn_sigma.
  - intros k Hk. rewrite Hcr by lia. f_equal. f_equal.
    apply firstn_all2. unfold Py.range. rewrite length_map, length_seq. lia.
  - rewrite <- cumulative_revenue_running. subst n TR.
    symmetry. apply cumulative_revenue_eq. lia.
  - intros inv df Hdf. apply calculate_projections_table in Hdf.
    destruct Hdf as (_ & _ & _ & _ & _ & Htr & _ & _ & Hcum & _).
    split; assumption.
Qed.

(** The two-year scenario: revenues of 1700000 and 1900000 accumulate to
    1700000 and 3600000. *)
Lemma cumulative_revenue_prefix_sums_witness :
  length [1; 2] = length [100; 100]
  /\ (1 < length [1; 2])%nat
  /\ length [1; 2] = 2%nat
  /\ (exists df,
        calculate_projections [1; 2] [100; 100] 15000 11000 2000 500 6000000
        = Ok df
        /\ Total_Revenue df = [1700000; 1900000]
        /\ Cumulative_Revenue df = [1700000; 3600000])
  /\ exists v,
       integer_columns [1; 2] [100; 100] 15000 11000 2000 500 = Ok v
       /\ length (Var.total_revenue v) = length [1; 2]
       /\ (forall i, (i < length [1; 2])%nat ->
             nth_error (Var.cumulative_revenue v) i
             = Some (sigma (fun j => nth j (Var.total_revenue v) 0) i))
       /\ (forall k, length [1; 2] = S k ->
             nth_error (Var.cumulative_revenue v) k
             = Some (Py.sum (Var.total_revenue v)))
       /\ Var.cumulative_revenue v
          = running_accumulator (Var.total_revenue v)
       /\ forall initial_investment df,
            calculate_projections [1; 2] [100; 100] 15000 11000 2000 500
              initial_investment = Ok df ->
            Total_Revenue df = Var.total_revenue v
            /\ Cumulative_Revenue df = Var.cumulative_revenue v.
Proof.
  split; [reflexivity|]. split; [simpl; lia|]. split; [reflexivity|].
  split; [eexists; split; [vm_compute; reflexivity | split; reflexivity]|].
  apply (cumulative_revenue_prefix_sums [1; 2] [100; 100]
           15000 11000 2000 500).
  reflexivity.
Defined.

(** C7.  When no year has a negative unit count, the installed base
    [total_units_in_market] never decreases from one year to the next; and
    this list is the one every call computes. *)
Theorem installed_base_monotone (units_sold : list Z) (i : nat) :
  Forall (fun u => 0 <= u) units_sold ->
  (1 <= i)%nat ->
  (i < length units_sold)%nat ->
  (exists before now,
     nth_error (Stmt.total_units_in_market units_sold) (i - 1) = Some before
     /\ nth_error (Stmt.total_units_in_market units_sold) i = Some now
     /\ before <= now)
  /\ forall years hardware_price hardware_cost subscription_fee
       subscription_cost v,
       integer_columns years units_sold hardware_price hardware_cost
         subscription_fee subscription_cost = Ok v ->
       Var.total_units_in_market v = Stmt.total_units_in_market units_sold.
Proof.
  intros Hpos H1 Hi. split.
  - exists (installed_base units_sold (i - 1)), (installed_base units_sold i).
    rewrite total_units_in_market_eq.
    split; [apply nth_error_map_range; lia|].
    split; [apply nth_error_map_range; lia|].
    unfold installed_base.
    replace (S (i - 1)) with i by lia.
    rewrite (sum_firstn_step units_sold i).
    assert (0 <= nth i units_sold 0).
    { rewrite Forall_forall in Hpos. apply Hpos. now apply nth_In. }
    lia.
  - intros years hp hc fee cost v Hv.
    destruct (Nat.lt_ge_cases (length units_sold) (length years)) as [Hlt|Hge].
    + rewrite integer_columns_years_longer in Hv by exact Hlt. discriminate.
    + rewrite integer_columns_eq in Hv by exact Hge.
      injection Hv as <-. reflexivity.
Qed.

(** A year without sales between two years with sales: the installed base
    stays at 100, then grows to 125. *)
Lemma installed_base_monotone_witness :
  Forall (fun u => 0 <= u) [100; 0; 25]
  /\ (1 <= 2)%nat
  /\ (2 < length [100; 0; 25])%nat
  /\ Stmt.total_units_in_market [100; 0; 25] = [100; 100; 125]
  /\ (exists v, integer_columns [1; 2; 3] [100; 0; 25] 15000 11000 2000 500
                = Ok v)
  /\ (exists before now,
        nth_error (Stmt.total_units_in_market [100; 0; 25]) (2 - 1)
        = Some before
        /\ nth_error (Stmt.total_units_in_market [100; 0; 25]) 2 = Some now
        /\ before <= now)
  /\ forall years hardware_price hardware_cost subscription_fee
       subscription_cost v,
       integer_columns years [100; 0; 25] hardware_price hardware_cost
         subscription_fee subscription_cost = Ok v ->
       Var.total_units_in_market v = Stmt.total_units_in_market [100; 0; 25].
Proof.
  split; [repeat constructor; lia|].
  split; [lia|]. split; [simpl; lia|]. split; [reflexivity|].
  split; [eexists; vm_compute; reflexivity|].
  apply (installed_base_monotone [100; 0; 25] 2).
  - repeat constructor; lia.
  - lia.
  - simpl. lia.
Defined.

(** C8.  The two-year scenario of the specification: 100 units a year at a
    price of 15000 and a cost of 11000, a fee of 2000 and a subscription
    cost of 500, for an investment of 6000000.  The ROI of the first year is
    the float [(1700000 - 6000000) / 6000000 * 100], which lies between
    -71.675 and -71.665: -71.67 to two decimals. *)
Theorem scenario_two_years :
  exists v df,
    integer_columns [1; 2] [100; 100] 15000 11000 2000 500 = Ok v
    /\ calculate_projections [1; 2] [100; 100] 15000 11000 2000 500 6000000
       = Ok df
    /\ nth_error (Hardware_Revenue df) 0 = Some 1500000
    /\ nth_error (Recurring_Revenue df) 0 = Some 200000
    /\ nth_error (Total_Revenue df) 0 = Some 1700000
    /\ nth_error (Total_Costs df) 0 = Some 1150000
    /\ nth_error (Profit df) 0 = Some 550000
    /\ nth_error (Cumulative_Revenue df) 0 = Some 1700000
    /\ (exists q roi x,
          Py.truediv (1700000 - 6000000) 6000000 = Ok q
          /\ roi = Py.fmul_int q 100
          /\ nth_error (ROI df) 0 = Some roi
          /\ float_value roi = Some x
          /\ (-71675 # 1000 <= x)%Q /\ (x <= -71665 # 1000)%Q)
    /\ nth_error (Var.total_units_in_market v) 1 = Some 200
    /\ nth_error (Recurring_Revenue df) 1 = Some 400000
    /\ nth_error (Hardware_Revenue df) 1 = Some 1500000
    /\ nth_error (Total_Revenue df) 1 = Some 1900000
    /\ nth_error (Cumulative_Revenue df) 1 = Some 3600000.
Proof.
  eexists. eexists.
  split; [vm_compute; reflexivity|].
  split; [vm_compute; reflexivity|].
  repeat (split; [reflexivity|]).
  split.
  - eexists. eexists. eexists.
    split; [vm_compute; reflexivity|].
    split; [reflexivity|].
    split; [vm_compute; reflexivity|].
    split; [vm_compute; reflexivity|].
    split; vm_compute; discriminate.
  - repeat split; reflexivity.
Qed.

(** C9.  With as many years as unit counts, in every year the total revenue
    is the hardware revenue plus the recurring revenue, the total costs are
    the hardware costs plus the recurring costs, and the profit is the total
    revenue minus the total costs; the returned table shows these values. *)
Theorem additive_decomposition (years units_sold : list Z)
    (hardware_price hardware_cost subscription_fee subscription_cost : Z)
    (i : nat) :
  length years = length units_sold ->
  (i < length years)%nat ->
  exists v hr rr tr hcs rc tc p,
    integer_columns years units_sold hardware_price hardware_cost
      subscription_fee subscription_cost = Ok v
    /\ nth_error (Var.hardware_revenue v) i = Some hr
    /\ nth_error (Var.recurring_revenue v) i = Some rr
    /\ nth_error (Var.total_revenue v) i = Some tr
    /\ nth_error (Var.hardware_costs v) i = Some hcs
    /\ nth_error (Var.recurring_costs v) i = Some rc
    /\ nth_error (Var.total_costs v) i = Some tc
    /\ nth_error (Var.profit v) i = Some p
    /\ tr = hr + rr /\ tc = hcs + rc /\ p = tr - tc
    /\ forall initial_investment df,
         calculate_projections years units_sold hardware_price hardware_cost
           subscription_fee subscription_cost initial_investment = Ok df ->
         nth_error (Hardware_Revenue df) i = Some hr
         /\ nth_error (Recurring_Revenue df) i = Some rr
         /\ nth_error (Total_Revenue df) i = Some tr
         /\ nth_error (Total_Costs df) i = Some tc
         /\ nth_error (Profit df) i = Some p.
Proof.
  intros Hlen Hi.
  eexists. do 7 eexists. split; [apply integer_columns_eq; lia|].
  split; [now apply entry_hardware_revenue|].
  split; [now apply entry_recurring_revenue|].
  split; [now apply entry_total_revenue|].
  split; [now apply entry_hardware_costs|].
  split; [now apply entry_recurring_costs|].
  split; [now apply entry_total_costs|].
  split; [now apply entry_profit|].
  split; [reflexivity|]. split; [reflexivity|]. split; [reflexivity|].
  intros inv df Hdf. apply calculate_projections_table in Hdf.
  destruct Hdf as (_ & _ & _ & Hhr & Hrr & Htr & Htc & Hp & _).
  rewrite Hhr, Hrr, Htr, Htc, Hp.
  split; [now apply entry_hardware_revenue|].
  split; [now apply entry_recurring_revenue|].
  split; [now apply entry_total_revenue|].
  split; [now apply entry_total_costs | now apply entry_profit].
Qed.

(** The second year of the two-year scenario. *)
Lemma additive_decomposition_witness :
  length [1; 2] = length [100; 100]
  /\ (1 < length [1; 2])%nat
  /\ (exists df,
        calculate_projections [1; 2] [100; 100] 15000 11000 2000 500 6000000
        = Ok df)
  /\ exists v hr rr tr hcs rc tc p,
       integer_columns [1; 2] [100; 100] 15000 11000 2000 500 = Ok v
       /\ nth_error (Var.hardware_revenue v) 1 = Some hr
       /\ nth_error (Var.recurring_revenue v) 1 = Some rr
       /\ nth_error (Var.total_revenue v) 1 = Some tr
       /\ nth_error (Var.hardware_costs v) 1 = Some hcs
       /\ nth_error (Var.recurring_costs v) 1 = Some rc
       /\ nth_error (Var.total_costs v) 1 = Some tc
       /\ nth_error (Var.profit v) 1 = Some p
       /\ tr = hr + rr /\ tc = hcs + rc /\ p = tr - tc
       /\ forall initial_investment df,
            calculate_projections [1; 2] [100; 100] 15000 11000 2000 500
              initial_investment = Ok df ->
            nth_error (Hardware_Revenue df) 1 = Some hr
            /\ nth_error (Recurring_Revenue df) 1 = Some rr
            /\ nth_error (Total_Revenue df) 1 = Some tr
            /\ nth_error (Total_Costs df) 1 = Some tc
            /\ nth_error (Profit df) 1 = Some p.
Proof.
  split; [reflexivity|]. split; [simpl; lia|].
  split; [eexists; vm_compute; reflexivity|].
  apply (additive_decomposition [1; 2] [100; 100] 15000 11000 2000 500 1%nat).
  - reflexivity.
  - simpl. lia.
Defined.

(** C10.  With as many years as unit counts, whatever the signs of the
    inputs, the profit margin of a year whose total revenue is zero or
    negative is the integer [0]: no division is evaluated for that year. *)
Theorem profit_margin_zero_unless_positive (years units_sold : list Z)
    (hardware_price hardware_cost subscription_fee subscription_cost : Z)
    (i : nat) :
  length years = length units_sold ->
  (i < length years)%nat ->
  total_revenue_at units_sold hardware_price subscription_fee i <= 0 ->
  exists v,
    integer_columns years units_sold hardware_price hardware_cost
      subscription_fee subscription_cost = Ok v
    /\ nth_error (Var.total_revenue v) i
       = Some (total_revenue_at units_sold hardware_price subscription_fee i)
    /\ Stmt.profit_margin_at (Var.profit v) (Var.total_revenue v) i
       = Ok (Py.Int 0)
    /\ forall initial_investment df,
         calculate_projections years units_sold hardware_price hardware_cost
           subscription_fee subscription_cost initial_investment = Ok df ->
         nth_error (Profit_Margin df) i = Some (Py.Int 0).
Proof.
  intros Hlen Hi Hr.
  set (n := length years).
  eexists. split; [apply integer_columns_eq; lia|].
  split; [now apply entry_total_revenue|].
  cbn [Var.profit Var.total_revenue columns].
  assert (Hat : Stmt.profit_margin_at
                  (map (profit_at units_sold hardware_price hardware_cost
                          subscription_fee subscription_cost) (Py.range n))
                  (map (total_revenue_at units_sold hardware_price
                          subscription_fee) (Py.range n)) i
                = Ok (Py.Int 0)).
  { rewrite profit_margin_at_eq by exact Hi.
    destruct (Z.gtb_spec
                (total_revenue_at units_sold hardware_price subscription_fee i)
                0); [lia | reflexivity]. }
  split; [exact Hat|].
  intros inv df Hdf. apply calculate_projections_table in Hdf.
  destruct Hdf as (_ & _ & _ & _ & _ & _ & _ & _ & _ & Hpm & _).
  cbn [Var.profit Var.total_revenue columns] in Hpm. fold n in Hpm.
  destruct (comprehension_nth _ _ _ i i Hpm) as (m & Hm & Hmi).
  { now apply nth_error_range. }
  rewrite Hat in Hmi. injection Hmi as <-. exact Hm.
Qed.

(** A negative hardware price: the second year's total revenue is -4600,
    its margin the integer [0]. *)
Lemma profit_margin_zero_unless_positive_witness :
  length [1; 2] = length [10; 10]
  /\ (1 < length [1; 2])%nat
  /\ total_revenue_at [10; 10] (-500) 20 1 = -4600
  /\ (exists df,
        calculate_projections [1; 2] [10; 10] (-500) 100 20 5 6000000 = Ok df
        /\ Total_Revenue df = [-4800; -4600]
        /\ Profit_Margin df = [Py.Int 0; Py.Int 0])
  /\ exists v,
       integer_columns [1; 2] [10; 10] (-500) 100 20 5 = Ok v
       /\ nth_error (Var.total_revenue v) 1
          = Some (total_revenue_at [10; 10] (-500) 20 1)
       /\ Stmt.profit_margin_at (Var.profit v) (Var.total_revenue v) 1
          = Ok (Py.Int 0)
       /\ forall initial_investment df,
            calculate_projections [1; 2] [10; 10] (-500) 100 20 5
              initial_investment = Ok df ->
            nth_error (Profit_Margin df) 1 = Some (Py.Int 0).
Proof.
  split; [reflexivity|]. split; [simpl; lia|]. split; [reflexivity|].
  split; [eexists; split; [vm_compute; reflexivity | split; reflexivity]|].
  apply (profit_margin_zero_unless_positive [1; 2] [10; 10]
           (-500) 100 20 5 1%nat).
  - reflexivity.
  - simpl. lia.
  - vm_compute. discriminate.
Defined.

(** * Further properties *)

(** ** The shape of a rounded float *)

Lemma Zdigits2_mul (a b : Z) :
  0 <= a -> 0 <= b -> Zdigits2 (a * b) <= Zdigits2 a + Zdigits2 b.
Proof.
  intros Ha Hb.
  pose proof (Zdigits2_gt a Ha). pose proof (Zdigits2_gt b Hb).
  pose proof (Zdigits2_nonneg a). pose proof (Zdigits2_nonneg b).
  apply Zdigits2_le; [nia | lia |].
  rewrite Z.pow_add_r by lia.
  assert (0 < 2 ^ Zdigits2 a) by (apply Z.pow_pos_nonneg; lia).
  assert (0 < 2 ^ Zdigits2 b) by (apply Z.pow_pos_nonneg; lia).
  nia.
Qed.

Lemma Zdigits2_pos (p : positive) : 1 <= Zdigits2 (Zpos p).
Proof. cbn [Zdigits2]. lia. Qed.

(** Rounding keeps the sign, yields no NaN, and raises the top of the
    number by at most one. *)
Lemma binary_round_aux_cases (sx : bool) (mx ex : Z) (lx : location) :
  0 <= mx ->
  let x := binary_round_aux Py.prec Py.emax sx mx ex lx in
  x = S754_zero sx
  \/ x = S754_infinity sx
  \/ exists m e,
       x = S754_finite sx m e
       /\ e <= 971
       /\ Zdigits2 (Zpos m) + e
          <= Z.max (Zdigits2 mx + ex)
                   (Z.max ex (fexp Py.prec Py.emax (Zdigits2 mx + ex))) + 1.
Proof.
  intros Hm. unfold binary_round_aux.
  destruct (shr_fexp_spec mx ex lx Hm) as (k1 & Hk1 & He1 & Hmax1 & Hm1).
  destruct (shr_fexp Py.prec Py.emax mx ex lx) as [r1 e1].
  cbn [fst snd] in He1, Hm1.
  set (m1 := round_nearest_even (shr_m r1) (loc_of_shr_record r1)).
  assert (Hpow : 0 < 2 ^ k1) by (apply Z.pow_pos_nonneg; lia).
  assert (Hr1 : 0 <= shr_m r1) by (rewrite Hm1; apply Z.div_pos; lia).
  pose proof (round_nearest_even_bounds (shr_m r1) (loc_of_shr_record r1))
    as Hb.
  fold m1 in Hb.
  assert (Hm1' : 0 <= m1) by lia.
  destruct (shr_fexp_spec m1 e1 loc_Exact Hm1')
    as (k2 & Hk2 & He2 & Hmax2 & Hm2).
  destruct (shr_fexp Py.prec Py.emax m1 e1 loc_Exact) as [r2 e2].
  cbn [fst snd] in He2, Hm2. cbv zeta.
  assert (Hpow2 : 0 < 2 ^ k2) by (apply Z.pow_pos_nonneg; lia).
  assert (Hdig : Zdigits2 m1 + e1
                 <= Z.max (Zdigits2 mx + ex) e1 + 1).
  { pose proof (Zdigits2_nonneg mx) as Hd0.
    pose proof (Zdigits2_gt mx Hm) as Hlt.
    destruct (Z.le_gt_cases k1 (Zdigits2 mx)) as [Hle|Hgt].
    - assert (shr_m r1 < 2 ^ (Zdigits2 mx - k1)).
      { rewrite Hm1. apply Z.div_lt_upper_bound; [lia|].
        rewrite <- Z.pow_add_r by lia.
        replace (k1 + (Zdigits2 mx - k1)) with (Zdigits2 mx) by lia.
        exact Hlt. }
      assert (m1 < 2 ^ (Zdigits2 mx - k1 + 1)).
      { rewrite Z.pow_add_r by lia. change (2 ^ 1) with 2. lia. }
      assert (Zdigits2 m1 <= Zdigits2 mx - k1 + 1)
        by (apply Zdigits2_le; lia).
      lia.
    - assert (shr_m r1 = 0).
      { rewrite Hm1. apply Z.div_small. split; [lia|].
        apply Z.lt_le_trans with (1 := Hlt). apply Z.pow_le_mono_r; lia. }
      assert (Zdigits2 m1 <= 1) by (apply Zdigits2_le; simpl; lia).
      lia. }
  destruct (shr_m r2) as [|m|m] eqn:Er2.
  - left. reflexivity.
  - destruct (Z.leb_spec e2 (Py.emax - Py.prec)) as [Hle|Hgt].
    + right. right. exists m, e2. split; [reflexivity|].
      split; [unfold Py.emax, Py.prec in Hle; lia|].
      pose proof (Zdigits2_gt m1 Hm1') as Hlt1.
      pose proof (Zdigits2_nonneg m1) as Hd1.
      assert (Hk : k2 <= Zdigits2 m1).
      { destruct (Z.le_gt_cases k2 (Zdigits2 m1)) as [H|H]; [exact H|].
        assert (m1 / 2 ^ k2 = 0).
        { apply Z.div_small. split; [lia|].
          apply Z.lt_le_trans with (1 := Hlt1).
          apply Z.pow_le_mono_r; lia. }
        lia. }
      assert (Zpos m < 2 ^ (Zdigits2 m1 - k2)).
      { rewrite Hm2. apply Z.div_lt_upper_bound; [lia|].
        rewrite <- Z.pow_add_r by lia.
        replace (k2 + (Zdigits2 m1 - k2)) with (Zdigits2 m1) by lia.
        exact Hlt1. }
      assert (Zdigits2 (Zpos m) <= Zdigits2 m1 - k2)
        by (apply Zdigits2_le; lia).
      lia.
    + right. left. reflexivity.
  - exfalso. assert (0 <= m1 / 2 ^ k2) by (apply Z.div_pos; lia). lia.
Qed.

(** A quotient that is returned is finite, its sign bit is the exclusive
    or of the signs of the operands, and it does not exceed the dividend by
    more than one binary digit. *)
Lemma truediv_shape (a b : Z) (q : spec_float) :
  Py.truediv a b = Ok q ->
  float_isfinite q = true
  /\ float_signbit q = xorb (a <? 0) (b <? 0)
  /\ float_top q <= Zdigits2 a + 1.
Proof.
  unfold Py.truediv.
  destruct (Z.eqb_spec b 0) as [E|Hb]; [discriminate|].
  assert (Hpos : forall (sa sb : bool) (ma mb : positive) (x : spec_float),
            SFdiv Py.prec Py.emax (S754_finite sa ma 0) (S754_finite sb mb 0)
            = x ->
            (exists s, x = S754_infinity s)
            \/ (float_isfinite x = true
                /\ float_signbit x = xorb sa sb
                /\ float_top x <= Zdigits2 (Zpos ma) + 1)).
  { intros sa sb ma mb x <-. cbn [SFdiv].
    pose proof (SFdiv_core_binary_bounds ma mb) as Hc.
    destruct (SFdiv_core_binary Py.prec Py.emax (Zpos ma) 0 (Zpos mb) 0)
      as [[mz ez] lz].
    destruct Hc as (Hq & He & Hd).
    pose proof (Zdigits2_pos ma) as Hda.
    destruct (binary_round_aux_cases (xorb sa sb) mz ez lz Hq)
      as [E|[E|(m & e & E & He' & Hd')]]; rewrite E.
    - right. cbn. repeat split. lia.
    - left. eauto.
    - right. cbn [float_isfinite float_signbit float_top].
      repeat split.
      unfold fexp, emin, Py.prec, Py.emax in Hd'. lia. }
  destruct a as [|ma|ma], b as [|mb|mb]; try contradiction; cbn [Py.exact].
  - cbn. intros H. injection H as <-. cbn. repeat split. lia.
  - cbn. intros H. injection H as <-. cbn. repeat split. lia.
  - destruct (SFdiv _ _ _ _) as [s|s| |s m e] eqn:E; try discriminate;
      intros H; injection H as <-;
      destruct (Hpos _ _ _ _ _ E) as [(s' & Hs)|Hs]; try discriminate;
      exact Hs.
  - destruct (SFdiv _ _ _ _) as [s|s| |s m e] eqn:E; try discriminate;
      intros H; injection H as <-;
      destruct (Hpos _ _ _ _ _ E) as [(s' & Hs)|Hs]; try discriminate;
      exact Hs.
  - destruct (SFdiv _ _ _ _) as [s|s| |s m e] eqn:E; try discriminate;
      intros H; injection H as <-;
      destruct (Hpos _ _ _ _ _ E) as [(s' & Hs)|Hs]; try discriminate;
      exact Hs.
  - destruct (SFdiv _ _ _ _) as [s|s| |s m e] eqn:E; try discriminate;
      intros H; injection H as <-;
      destruct (Hpos _ _ _ _ _ E) as [(s' & Hs)|Hs]; try discriminate;
      exact Hs.
Qed.

Lemma float_of_int_100 : Py.float_of_int 100 = plus_hundred.
Proof. reflexivity. Qed.

(** Multiplying a finite float by [100] keeps its sign, yields no NaN, and
    stays finite unless the float is enormous. *)
Lemma fmul_100_shape (q : spec_float) :
  float_isfinite q = true ->
  float_isnan (Py.fmul_int q 100) = false
  /\ float_signbit (Py.fmul_int q 100) = float_signbit q
  /\ (float_top q <= 1016 -> float_isfinite (Py.fmul_int q 100) = true).
Proof.
  unfold Py.fmul_int. rewrite float_of_int_100. unfold plus_hundred.
  destruct q as [s|s| |s m e]; try discriminate; intros _.
  - cbn. rewrite Bool.xorb_false_r. auto.
  - cbn [SFmul float_signbit float_top]. rewrite Bool.xorb_false_r.
    set (mx := Zpos (m * 7036874417766400)).
    assert (Hmx : 0 <= mx) by (subst mx; lia).
    destruct (binary_round_aux_cases s mx (e + -46) loc_Exact Hmx)
      as [E|[E|(m' & e' & E & He' & Hd')]];
      rewrite E; cbn [float_isnan float_signbit float_isfinite];
      (split; [reflexivity|]); (split; [reflexivity|]); try (intros; reflexivity).
    intros Htop. exfalso.
    pose proof (Zdigits2_pos m) as Hdm.
    assert (Hd : Zdigits2 mx <= Zdigits2 (Zpos m) + 53).
    { subst mx. rewrite Pos2Z.inj_mul.
      pose proof (Zdigits2_mul (Zpos m) 7036874417766400
                    ltac:(lia) ltac:(lia)) as H.
      change (Zdigits2 7036874417766400) with 53 in H. exact H. }
    apply (binary_round_aux_not_infinity s mx (e + -46) loc_Exact Hmx)
      with (s := s); [lia | lia | exact E].
Qed.

(** An integer divided by itself is the float [1.0], up to the sign. *)
Lemma SFdiv_same (s1 s2 : bool) (m : positive) :
  SFdiv Py.prec Py.emax (S754_finite s1 m 0) (S754_finite s2 m 0)
  = S754_finite (xorb s1 s2) 4503599627370496 (-52).
Proof.
  cbn [SFdiv]. unfold SFdiv_core_binary.
  replace (Zdigits2 (Zpos m) + 0 - (Zdigits2 (Zpos m) + 0)) with 0 by lia.
  change (Z.min (fexp Py.prec Py.emax 0) (0 - 0)) with (-53).
  change (0 - 0 - -53) with 53.
  cbv iota beta.
  rewrite Z.shiftl_mul_pow2 by lia.
  assert (Hq : (Zpos m * 2 ^ 53) / Zpos m = 2 ^ 53).
  { rewrite Z.mul_comm. apply Z.div_mul. lia. }
  assert (Hr : (Zpos m * 2 ^ 53) mod Zpos m = 0).
  { rewrite Z.mul_comm. apply Z.mod_mul. lia. }
  unfold Z.div in Hq. unfold Z.modulo in Hr.
  destruct (Z.div_eucl (Zpos m * 2 ^ 53) (Zpos m)) as [q r].
  subst q r.
  assert (Hloc : new_location (Zpos m) 0 = loc_Exact).
  { unfold new_location, new_location_even, new_location_odd.
    destruct (Z.even (Zpos m)); reflexivity. }
  rewrite Hloc. destruct s1, s2; reflexivity.
Qed.

Lemma truediv_opp_same (a : Z) :
  0 < a -> Py.truediv (- a) a = Ok (S754_finite true 4503599627370496 (-52)).
Proof.
  intros Ha. unfold Py.truediv.
  destruct (Z.eqb_spec a 0) as [E|_]; [lia|].
  destruct a as [|m|m]; try lia.
  cbn [Z.opp Py.exact]. rewrite SFdiv_same. reflexivity.
Qed.


(** ** Signs and finiteness of the two float columns *)

Lemma Zdigits2_abs (a : Z) : Zdigits2 a = Zdigits2 (Z.abs a).
Proof. destruct a; reflexivity. Qed.

Lemma Zdigits2_below (a k : Z) :
  0 <= k -> Z.abs a < 2 ^ k -> Zdigits2 a <= k.
Proof.
  intros Hk Ha. rewrite Zdigits2_abs. apply Zdigits2_le; lia.
Qed.

(** The ROI entry of a returned table, traced back to its quotient. *)
Lemma roi_entry (years units_sold : list Z)
    (hardware_price hardware_cost subscription_fee subscription_cost
     initial_investment : Z) (df : DataFrame) (i : nat) :
  calculate_projections years units_sold hardware_price hardware_cost
    subscription_fee subscription_cost initial_investment = Ok df ->
  (i < length years)%nat ->
  let c := cumulative_revenue_at units_sold hardware_price subscription_fee i in
  nth_error (Cumulative_Revenue df) i = Some c
  /\ exists q,
       Py.truediv (c - initial_investment) initial_investment = Ok q
       /\ nth_error (ROI df) i = Some (Py.fmul_int q 100).
Proof.
  intros Hdf Hi c.
  destruct (row_at_table _ _ _ _ _ _ _ _ i Hdf Hi)
    as (y & m & x & _ & _ & Ex & _).
  apply calculate_projections_table in Hdf.
  destruct Hdf as (Hlen & _ & _ & _ & _ & _ & _ & _ & Hcr & _ & Hroi).
  split.
  - rewrite Hcr. now apply entry_cumulative_revenue.
  - cbn [Var.cumulative_revenue columns] in Hroi.
    destruct (comprehension_nth _ _ _ i i Hroi (nth_error_range _ i Hi))
      as (x' & Hx' & Hxi).
    rewrite roi_at_eq in Hxi by exact Hi. fold c in Hxi.
    destruct (Py.truediv (c - initial_investment) initial_investment)
      as [q|e]; [|discriminate].
    cbn [bind] in Hxi. injection Hxi as <-. exists q. auto.
Qed.

(** The margin entry of a returned table, traced back to its quotient. *)
Lemma margin_entry (years units_sold : list Z)
    (hardware_price hardware_cost subscription_fee subscription_cost
     initial_investment : Z) (df : DataFrame) (i : nat) :
  calculate_projections years units_sold hardware_price hardware_cost
    subscription_fee subscription_cost initial_investment = Ok df ->
  (i < length years)%nat ->
  let p := profit_at units_sold hardware_price hardware_cost subscription_fee
             subscription_cost i in
  let r := total_revenue_at units_sold hardware_price subscription_fee i in
  nth_error (Profit df) i = Some p
  /\ nth_error (Total_Revenue df) i = Some r
  /\ ((r <= 0 /\ nth_error (Profit_Margin df) i = Some (Py.Int 0))
      \/ (0 < r
          /\ exists q,
               Py.truediv p r = Ok q
               /\ nth_error (Profit_Margin df) i
                  = Some (Py.Float (Py.fmul_int q 100)))).
Proof.
  intros Hdf Hi p r.
  apply calculate_projections_table in Hdf.
  destruct Hdf as (Hlen & _ & _ & _ & _ & Htr & _ & Hp & _ & Hpm & _).
  split; [rewrite Hp; now apply entry_profit|].
  split; [rewrite Htr; now apply entry_total_revenue|].
  cbn [Var.profit Var.total_revenue columns] in Hpm.
  destruct (comprehension_nth _ _ _ i i Hpm (nth_error_range _ i Hi))
    as (m & Hm & Hmi).
  rewrite profit_margin_at_eq in Hmi by exact Hi. fold p r in Hmi.
  destruct (Z.gtb_spec r 0) as [Hpos|Hle].
  - right. split; [lia|].
    destruct (Py.truediv p r) as [q|e]; [|discriminate].
    cbn [bind] in Hmi. injection Hmi as <-. exists q. auto.
  - left. split; [lia|]. injection Hmi as <-. exact Hm.
Qed.

(** X1, break-even.  In a returned table, for a positive initial investment,
    the ROI of a year is never NaN, and its sign bit is set exactly when
    the cumulative revenue of that year is still below the investment. *)
Theorem roi_negative_until_break_even (years units_sold : list Z)
    (hardware_price hardware_cost subscription_fee subscription_cost
     initial_investment : Z) (df : DataFrame) (i : nat) :
  calculate_projections years units_sold hardware_price hardware_cost
    subscription_fee subscription_cost initial_investment = Ok df ->
  0 < initial_investment ->
  (i < length years)%nat ->
  exists c x,
    nth_error (Cumulative_Revenue df) i = Some c
    /\ nth_error (ROI df) i = Some x
    /\ float_isnan x = false
    /\ float_signbit x = (c <? initial_investment).
Proof.
  intros Hdf Hinv Hi.
  destruct (roi_entry _ _ _ _ _ _ _ _ i Hdf Hi) as (Hc & q & Hq & Hx).
  eexists. eexists. split; [exact Hc|]. split; [exact Hx|].
  destruct (truediv_shape _ _ _ Hq) as (Hfin & Hsign & _).
  destruct (fmul_100_shape q Hfin) as (Hnan & Hs & _).
  split; [exact Hnan|].
  rewrite Hs, Hsign.
  destruct (Z.ltb_spec initial_investment 0); [lia|].
  rewrite Bool.xorb_false_r.
  destruct (Z.ltb_spec
              (cumulative_revenue_at units_sold hardware_price
                 subscription_fee i - initial_investment) 0),
           (Z.ltb_spec
              (cumulative_revenue_at units_sold hardware_price
                 subscription_fee i) initial_investment);
    reflexivity || lia.
Qed.

(** The two-year scenario: an investment of 6000000 is not recovered after
    two years (3600000), so both ROI entries have their sign bit set. *)
Lemma roi_negative_until_break_even_witness :
  0 < 6000000
  /\ (1 < length [1; 2])%nat
  /\ exists df,
       calculate_projections [1; 2] [100; 100] 15000 11000 2000 500 6000000
       = Ok df
       /\ exists c x,
            nth_error (Cumulative_Revenue df) 1 = Some c
            /\ nth_error (ROI df) 1 = Some x
            /\ float_isnan x = false
            /\ float_signbit x = (c <? 6000000).
Proof.
  split; [lia|]. split; [simpl; lia|].
  eexists. split; [vm_compute; reflexivity|].
  apply (roi_negative_until_break_even [1; 2] [100; 100]
           15000 11000 2000 500 6000000 _ 1%nat).
  - vm_compute. reflexivity.
  - lia.
  - simpl. lia.
Defined.



Lemma small_input_moderate (years units_sold : list Z)
    (hardware_price hardware_cost subscription_fee subscription_cost
     initial_investment : Z) :
  small_input years units_sold hardware_price hardware_cost subscription_fee
    subscription_cost initial_investment ->
  moderate_input years units_sold hardware_price hardware_cost
    subscription_fee subscription_cost initial_investment.
Proof.
  assert (H : 2 ^ 250 <= 2 ^ 255) by (vm_compute; discriminate).
  remember (2 ^ 250) as S eqn:ES. remember (2 ^ 255) as M eqn:EM.
  unfold small_input, moderate_input. rewrite <- ES, <- EM.
  intros (Hn & Hu & Hp & Hc & Hf & Hs & Hi).
  repeat split; try lia.
  eapply Forall_impl; [|exact Hu]. cbv beta. intros a Ha. lia.
Qed.

(** X3, finite floats.  For a valid input whose values and number of years
    do not exceed [2 ^ 250] the call returns a table in which every ROI is
    a finite float and every margin is the integer [0] or a finite float:
    no infinity and no NaN reaches the charts. *)
Theorem floats_finite_on_small_inputs (years units_sold : list Z)
    (hardware_price hardware_cost subscription_fee subscription_cost
     initial_investment : Z) :
  valid_input years units_sold hardware_price hardware_cost subscription_fee
    subscription_cost initial_investment ->
  small_input years units_sold hardware_price hardware_cost subscription_fee
    subscription_cost initial_investment ->
  exists df,
    calculate_projections years units_sold hardware_price hardware_cost
      subscription_fee subscription_cost initial_investment = Ok df
    /\ forall i,
         (i < length years)%nat ->
         (exists x, nth_error (ROI df) i = Some x
                    /\ float_isfinite x = true)
         /\ exists m,
              nth_error (Profit_Margin df) i = Some m
              /\ (m = Py.Int 0
                  \/ exists y, m = Py.Float y /\ float_isfinite y = true).
Proof.
  intros Hvalid Hsmall.
  destruct (calculate_projections_returns _ _ _ _ _ _ _ Hvalid
              (small_input_moderate _ _ _ _ _ _ _ Hsmall))
    as (pm & roi & Hdf).
  eexists. split; [exact Hdf|].
  destruct Hvalid as (Hlen & Hn1 & Hu & Hp & Hc & Hf & Hs & Hi).
  destruct Hsmall as (Mn & Mu & Mp & Mc & Mf & Ms & Mi).
  assert (HB0 : 0 <= 2 ^ 250) by (vm_compute; discriminate).
  assert (HB1 : 2 ^ 250 * 2 ^ 250 + 2 ^ 250 * 2 ^ 250 * 2 ^ 250 < 2 ^ 1015)
    by (vm_compute; reflexivity).
  assert (HB2 : 2 ^ 250 * (2 ^ 250 * 2 ^ 250 + 2 ^ 250 * 2 ^ 250 * 2 ^ 250)
                + 2 ^ 250 < 2 ^ 1015)
    by (vm_compute; reflexivity).
  remember (2 ^ 250) as B eqn:EB in *. remember (2 ^ 1015) as T eqn:ET in *.
  assert (Hunits : Forall (fun x => 0 <= x <= B) units_sold).
  { rewrite Forall_forall in *. intros x Hx.
    specialize (Hu x Hx). specialize (Mu x Hx). cbv beta in *. lia. }
  assert (Hn : Z.of_nat (length units_sold) <= B)
    by (rewrite <- Hlen; exact Mn).
  assert (Bp : 0 <= hardware_price <= B) by lia.
  assert (Bc : 0 <= hardware_cost <= B) by lia.
  assert (Bf : 0 <= subscription_fee <= B) by lia.
  assert (Bs : 0 <= subscription_cost <= B) by lia.
  intros i Hlt. split.
  - destruct (roi_entry _ _ _ _ _ _ _ _ i Hdf Hlt) as (_ & q & Hq & Hx).
    eexists. split; [exact Hx|].
    destruct (truediv_shape _ _ _ Hq) as (Hfin & _ & Htop).
    apply (fmul_100_shape q Hfin).
    assert (Hi' : (i < length units_sold)%nat) by lia.
    pose proof (cumulative_revenue_at_bounded B HB0 units_sold
                  hardware_price subscription_fee Hunits Bp Bf Hn i Hi')
      as Hcr.
    assert (Zdigits2
              (cumulative_revenue_at units_sold hardware_price
                 subscription_fee i - initial_investment) <= 1015).
    { apply Zdigits2_below; [lia|]. rewrite <- ET. lia. }
    lia.
  - destruct (margin_entry _ _ _ _ _ _ _ _ i Hdf Hlt)
      as (_ & _ & [(_ & Hm)|(_ & q & Hq & Hm)]).
    + eexists. split; [exact Hm|]. left. reflexivity.
    + eexists. split; [exact Hm|]. right. eexists. split; [reflexivity|].
      destruct (truediv_shape _ _ _ Hq) as (Hfin & _ & Htop).
      apply (fmul_100_shape q Hfin).
      pose proof (profit_at_bounded B HB0 units_sold hardware_price
                    hardware_cost subscription_fee subscription_cost Hunits
                    Bp Bc Bf Bs Hn i) as Hpb.
      assert (Zdigits2
                (profit_at units_sold hardware_price hardware_cost
                   subscription_fee subscription_cost i) <= 1015).
      { apply Zdigits2_below; [lia|]. rewrite <- ET. lia. }
      lia.
Qed.

Lemma floats_finite_on_small_inputs_witness :
  valid_input [1; 2] [100; 100] 15000 11000 2000 500 6000000
  /\ small_input [1; 2] [100; 100] 15000 11000 2000 500 6000000
  /\ exists df,
       calculate_projections [1; 2] [100; 100] 15000 11000 2000 500 6000000
       = Ok df
       /\ forall i,
            (i < length [1; 2])%nat ->
            (exists x, nth_error (ROI df) i = Some x
                       /\ float_isfinite x = true)
            /\ exists m,
                 nth_error (Profit_Margin df) i = Some m
                 /\ (m = Py.Int 0
                     \/ exists y, m = Py.Float y /\ float_isfinite y = true).
Proof.
  assert (Hvalid : valid_input [1; 2] [100; 100] 15000 11000 2000 500 6000000).
  { unfold valid_input.
    repeat split; try lia; try reflexivity; try (simpl; lia).
    repeat constructor; lia. }
  assert (Hsmall : small_input [1; 2] [100; 100] 15000 11000 2000 500 6000000).
  { unfold small_input.
    split; [vm_compute; discriminate|].
    split; [repeat constructor; vm_compute; discriminate|].
    repeat split; vm_compute; discriminate. }
  split; [exact Hvalid|]. split; [exact Hsmall|].
  exact (floats_finite_on_small_inputs [1; 2] [100; 100] 15000 11000 2000 500
           6000000 Hvalid Hsmall).
Defined.

(** ** Exact percentages *)

Lemma sum_zeros (l : list Z) : Forall (fun u => u = 0) l -> Py.sum l = 0.
Proof.
  induction 1 as [|x l Hx _ IH].
  - apply sum_nil.
  - rewrite sum_cons. lia.
Qed.

Lemma map_const_repeat {A B : Type} (b : B) (l : list A) :
  map (fun _ => b) l = repeat b (length l).
Proof. induction l as [|a l IH]; simpl; [reflexivity | now rewrite IH]. Qed.

Lemma map_range_const {B : Type} (f : nat -> B) (b : B) (n : nat) :
  (forall i, f i = b) -> map f (Py.range n) = repeat b n.
Proof.
  intros H. rewrite (map_ext f (fun _ => b) H), map_const_repeat.
  unfold Py.range. now rewrite length_seq.
Qed.

Lemma fmul_minus_one_100 :
  Py.fmul_int (S754_finite true 4503599627370496 (-52)) 100 = minus_hundred.
Proof. reflexivity. Qed.


(** X4, no sales.  When no unit is sold in any year and the initial
    investment is positive, the call returns, whatever the prices and the
    number of years: revenue, costs and profit are zero throughout, every
    margin is the integer [0] and every ROI is exactly [-100.0]. *)
Theorem no_sales_lose_the_investment (years units_sold : list Z)
    (hardware_price hardware_cost subscription_fee subscription_cost
     initial_investment : Z) :
  length years = length units_sold ->
  Forall (fun u => u = 0) units_sold ->
  0 < initial_investment ->
  exists df,
    calculate_projections years units_sold hardware_price hardware_cost
      subscription_fee subscription_cost initial_investment = Ok df
    /\ Total_Revenue df = repeat 0 (length years)
    /\ Total_Costs df = repeat 0 (length years)
    /\ Profit df = repeat 0 (length years)
    /\ Cumulative_Revenue df = repeat 0 (length years)
    /\ Profit_Margin df = repeat (Py.Int 0) (length years)
    /\ ROI df = repeat minus_hundred (length years).
Proof.
  intros Hlen Hzero Hinv.
  set (n := length years).
  assert (Hunit : forall i, units_at units_sold i = 0).
  { intros i. unfold units_at.
    destruct (Nat.lt_ge_cases i (length units_sold)) as [Hi|Hi].
    - rewrite Forall_forall in Hzero. apply Hzero. now apply nth_In.
    - now apply nth_overflow. }
  assert (Hbase : forall i, installed_base units_sold i = 0)
    by (intros i; apply sum_zeros, Forall_firstn, Hzero).
  assert (Htr : forall i,
            total_revenue_at units_sold hardware_price subscription_fee i = 0).
  { intros i.
    unfold total_revenue_at, hardware_revenue_at, recurring_revenue_at.
    rewrite Hunit, Hbase. lia. }
  assert (Htc : forall i,
            total_costs_at units_sold hardware_cost subscription_cost i = 0).
  { intros i. unfold total_costs_at, hardware_costs_at, recurring_costs_at.
    rewrite Hunit, Hbase. lia. }
  assert (Hp : forall i,
            profit_at units_sold hardware_price hardware_cost subscription_fee
              subscription_cost i = 0).
  { intros i. unfold profit_at. rewrite Htr, Htc. lia. }
  assert (Hcr : forall i,
            cumulative_revenue_at units_sold hardware_price subscription_fee i
            = 0).
  { intros i. unfold cumulative_revenue_at. apply sum_zeros.
    apply Forall_forall. intros x Hx. apply in_map_iff in Hx.
    destruct Hx as (j & <- & _). apply Htr. }
  assert (Hpm : Stmt.profit_margin
                  (Var.profit
                     (columns units_sold hardware_price hardware_cost
                        subscription_fee subscription_cost n))
                  (Var.total_revenue
                     (columns units_sold hardware_price hardware_cost
                        subscription_fee subscription_cost n)) years
                = Ok (map (fun _ => Py.Int 0) (Py.range n))).
  { apply comprehension_range_ok. intros i Hi.
    cbn [Var.profit Var.total_revenue columns].
    rewrite profit_margin_at_eq by exact Hi. rewrite Htr. reflexivity. }
  assert (Hroi : Stmt.roi
                   (Var.cumulative_revenue
                      (columns units_sold hardware_price hardware_cost
                         subscription_fee subscription_cost n))
                   initial_investment years
                 = Ok (map (fun _ => minus_hundred) (Py.range n))).
  { apply comprehension_range_ok. intros i Hi.
    cbn [Var.cumulative_revenue columns].
    rewrite roi_at_eq by exact Hi. rewrite Hcr.
    change (0 - initial_investment) with (- initial_investment).
    rewrite truediv_opp_same by exact Hinv. cbn [bind].
    now rewrite fmul_minus_one_100. }
  eexists. split.
  - apply (calculate_projections_ok _ _ _ _ _ _ _ _ _ Hlen Hpm Hroi).
  - unfold projection_table. fold n.
    cbn [Total_Revenue Total_Costs Profit Cumulative_Revenue Profit_Margin
         ROI Var.total_revenue Var.total_costs Var.profit
         Var.cumulative_revenue columns].
    rewrite (map_range_const _ 0 n Htr), (map_range_const _ 0 n Htc),
      (map_range_const _ 0 n Hp), (map_range_const _ 0 n Hcr),
      (map_range_const _ (Py.Int 0) n (fun _ => eq_refl)),
      (map_range_const _ minus_hundred n (fun _ => eq_refl)).
    repeat split.
Qed.

Lemma no_sales_lose_the_investment_witness :
  length [1; 2; 3] = length [0; 0; 0]
  /\ Forall (fun u => u = 0) [0; 0; 0]
  /\ 0 < 6000000
  /\ exists df,
       calculate_projections [1; 2; 3] [0; 0; 0] 15000 11000 2000 500 6000000
       = Ok df
       /\ Total_Revenue df = repeat 0 (length [1; 2; 3])
       /\ Total_Costs df = repeat 0 (length [1; 2; 3])
       /\ Profit df = repeat 0 (length [1; 2; 3])
       /\ Cumulative_Revenue df = repeat 0 (length [1; 2; 3])
       /\ Profit_Margin df = repeat (Py.Int 0) (length [1; 2; 3])
       /\ ROI df = repeat minus_hundred (length [1; 2; 3]).
Proof.
  split; [reflexivity|]. split; [repeat constructor|]. split; [lia|].
  apply (no_sales_lose_the_investment [1; 2; 3] [0; 0; 0]
           15000 11000 2000 500 6000000).
  - reflexivity.
  - repeat constructor.
  - lia.
Defined.



(** ** The role of [years] *)

Lemma integer_columns_length_only (years years' units_sold : list Z)
    (hardware_price hardware_cost subscription_fee subscription_cost : Z) :
  length years' = length years ->
  integer_columns years' units_sold hardware_price hardware_cost
    subscription_fee subscription_cost
  = integer_columns years units_sold hardware_price hardware_cost
      subscription_fee subscription_cost.
Proof.
  intros H.
  unfold integer_columns, Stmt.recurring_revenue, Stmt.total_revenue,
    Stmt.recurring_costs, Stmt.total_costs, Stmt.profit.
  rewrite H. reflexivity.
Qed.

(** X6, year labels.  [calculate_projections] reads [years] for its length
    only: a call with other year values of the same number raises the same
    exception or returns the same table, but for the year column, which
    carries the new values. *)
Theorem years_only_label_the_rows (years years' units_sold : list Z)
    (hardware_price hardware_cost subscription_fee subscription_cost
     initial_investment : Z) :
  length years' = length years ->
  calculate_projections years' units_sold hardware_price hardware_cost
    subscription_fee subscription_cost initial_investment
  = match calculate_projections years units_sold hardware_price
            hardware_cost subscription_fee subscription_cost
            initial_investment with
    | Ok df => Ok (with_years years' df)
    | Raise e => Raise e
    end.
Proof.
  intros H. unfold calculate_projections.
  rewrite (integer_columns_length_only years years' units_sold _ _ _ _ H).
  destruct (integer_columns years units_sold hardware_price hardware_cost
              subscription_fee subscription_cost) as [v|e];
    [|reflexivity].
  cbn [bind]. unfold Stmt.profit_margin, Stmt.roi. rewrite H.
  destruct (Py.comprehension _ _) as [pm|e]; [|reflexivity].
  cbn [bind].
  destruct (Py.comprehension _ _) as [roi|e]; [|reflexivity].
  cbn [bind]. unfold pd.DataFrame. rewrite H.
  destruct (forallb _ _); reflexivity.
Qed.

(** Calendar years instead of year numbers. *)
Lemma years_only_label_the_rows_witness :
  length [2025; 2026] = length [1; 2]
  /\ (exists df,
        calculate_projections [1; 2] [100; 100] 15000 11000 2000 500 6000000
        = Ok df)
  /\ calculate_projections [2025; 2026] [100; 100] 15000 11000 2000 500
       6000000
     = match calculate_projections [1; 2] [100; 100] 15000 11000 2000 500
               6000000 with
       | Ok df => Ok (with_years [2025; 2026] df)
       | Raise e => Raise e
       end.
Proof.
  split; [reflexivity|].
  split; [eexists; vm_compute; reflexivity|].
  apply (years_only_label_the_rows [1; 2] [2025; 2026] [100; 100]
           15000 11000 2000 500 6000000).
  reflexivity.
Defined.

(** ** What an exception tells *)

Lemma calculate_projections_raise_le (years units_sold : list Z)
    (hardware_price hardware_cost subscription_fee subscription_cost
     initial_investment : Z) (e : exn) :
  (length years <= length units_sold)%nat ->
  calculate_projections years units_sold hardware_price hardware_cost
    subscription_fee subscription_cost initial_investment = Raise e ->
  e = OverflowError
  \/ (e = ZeroDivisionError /\ initial_investment = 0 /\ years <> [])
  \/ (e = ValueError /\ (length years < length units_sold)%nat).
Proof.
  intros Hle H.
  destruct (Nat.eq_dec (length years) (length units_sold)) as [Heq|Hne].
  - destruct (calculate_projections_raise _ _ _ _ _ _ _ e Heq H)
      as [E|E]; auto.
  - assert (Hlt : (length years < length units_sold)%nat) by lia.
    rewrite calculate_projections_unfold in H by exact Hle.
    set (n := length years) in *.
    set (v := columns units_sold hardware_price hardware_cost subscription_fee
                subscription_cost n) in *.
    destruct (Stmt.profit_margin (Var.profit v) (Var.total_revenue v) years)
      as [pm|e1] eqn:Hpm; cbn [bind] in H.
    + destruct (Stmt.roi (Var.cumulative_revenue v) initial_investment years)
        as [roi|e2] eqn:Hroi; cbn [bind] in H.
      * apply DataFrame_inv in H. destruct H as [(H & _)|H];
          [discriminate|].
        injection H as <-. right. right. auto.
      * injection H as ->.
        apply comprehension_raise in Hroi. destruct Hroi as (i & Hi & Hr).
        apply in_seq in Hi. subst v.
        cbn [Var.cumulative_revenue columns] in Hr.
        destruct (Z.eq_dec initial_investment 0) as [E0|Hnz].
        -- right. left. rewrite roi_at_zero in Hr; [|fold n; lia|exact E0].
           injection Hr as <-. repeat split; auto.
           intros E. subst n. rewrite E in Hi. simpl in Hi. lia.
        -- left. apply roi_at_raise in Hr; [exact Hr|fold n; lia|exact Hnz].
    + injection H as ->.
      apply comprehension_raise in Hpm. destruct Hpm as (i & Hi & Hr).
      apply in_seq in Hi. subst v.
      cbn [Var.profit Var.total_revenue columns] in Hr.
      left. apply profit_margin_at_raise in Hr; [exact Hr|fold n; lia].
Qed.

(** X7, causes.  Each exception of [calculate_projections] has one cause:
    [IndexError] is raised exactly when there are more years than unit
    counts; [ValueError] only when there are fewer; [ZeroDivisionError]
    only for an initial investment of zero, with at least one year and no
    more years than unit counts. *)
Theorem exception_causes (years units_sold : list Z)
    (hardware_price hardware_cost subscription_fee subscription_cost
     initial_investment : Z) :
  let call :=
    calculate_projections years units_sold hardware_price hardware_cost
      subscription_fee subscription_cost initial_investment in
  (call = Raise IndexError <-> (length units_sold < length years)%nat)
  /\ (call = Raise ValueError -> (length years < length units_sold)%nat)
  /\ (call = Raise ZeroDivisionError ->
      initial_investment = 0 /\ years <> []
      /\ (length years <= length units_sold)%nat).
Proof.
  intros call.
  assert (Hcases : forall e, call = Raise e ->
            (e = IndexError /\ (length units_sold < length years)%nat)
            \/ ((length years <= length units_sold)%nat
                /\ (e = OverflowError
                    \/ (e = ZeroDivisionError /\ initial_investment = 0
                        /\ years <> [])
                    \/ (e = ValueError
                        /\ (length years < length units_sold)%nat)))).
  { intros e He.
    destruct (Nat.lt_ge_cases (length units_sold) (length years)) as [Hlt|Hge].
    - left. split; [|exact Hlt]. subst call.
      rewrite calculate_projections_years_longer in He by exact Hlt.
      now injection He as <-.
    - right. split; [exact Hge|].
      unfold call in He.
      exact (calculate_projections_raise_le _ _ _ _ _ _ _ e Hge He). }
  split; [split|split].
  - intros H. destruct (Hcases _ H) as [(_ & Hlt)|(_ & [E|[(E & _)|(E & _)]])];
      [exact Hlt | discriminate | discriminate | discriminate].
  - apply calculate_projections_years_longer.
  - intros H. destruct (Hcases _ H) as [(E & _)|(_ & [E|[(E & _)|(_ & Hlt)]])];
      [discriminate | discriminate | discriminate | exact Hlt].
  - intros H.
    destruct (Hcases _ H) as [(E & _)|(Hge & [E|[(_ & E0 & Hy)|(E & _)]])];
      [discriminate | discriminate | auto | discriminate].
Qed.

(** One call for each exception. *)
Lemma exception_causes_witness :
  (calculate_projections [1; 2] [100] 15000 11000 2000 500 6000000
   = Raise IndexError
   <-> (length [100] < length [1; 2])%nat)
  /\ calculate_projections [1; 2] [100] 15000 11000 2000 500 6000000
     = Raise IndexError
  /\ calculate_projections [1] [100; 100] 15000 11000 2000 500 6000000
     = Raise ValueError
  /\ (length [1] < length [100; 100])%nat
  /\ calculate_projections [1] [100] 15000 11000 2000 500 0
     = Raise ZeroDivisionError
  /\ (0 = 0 /\ [1] <> [] /\ (length [1] <= length [100])%nat).
Proof.
  split.
  { apply (exception_causes [1; 2] [100] 15000 11000 2000 500 6000000). }
  split; [vm_compute; reflexivity|].
  split; [vm_compute; reflexivity|].
  split.
  { apply (exception_causes [1] [100; 100] 15000 11000 2000 500 6000000).
    vm_compute. reflexivity. }
  split; [vm_compute; reflexivity|].
  apply (exception_causes [1] [100] 15000 11000 2000 500 0).
  vm_compute. reflexivity.
Defined.

(** ** Orders between the integer columns *)

Lemma cumulative_revenue_at_succ (units_sold : list Z)
    (hardware_price subscription_fee : Z) (j : nat) :
  cumulative_revenue_at units_sold hardware_price subscription_fee (S j)
  = cumulative_revenue_at units_sold hardware_price subscription_fee j
    + total_revenue_at units_sold hardware_price subscription_fee (S j).
Proof.
  unfold cumulative_revenue_at.
  rewrite (seq_S (S j) 0), map_app, sum_app. cbn [map Nat.add].
  rewrite sum_cons, sum_nil. lia.
Qed.

Lemma installed_base_succ (units_sold : list Z) (j : nat) :
  installed_base units_sold (S j)
  = installed_base units_sold j + units_at units_sold (S j).
Proof. unfold installed_base, units_at. apply sum_firstn_step. Qed.

Lemma units_at_nonneg (units_sold : list Z) (i : nat) :
  Forall (fun u => 0 <= u) units_sold -> 0 <= units_at units_sold i.
Proof.
  intros Hu. unfold units_at.
  destruct (Nat.lt_ge_cases i (length units_sold)) as [Hi|Hi].
  - rewrite Forall_forall in Hu. apply Hu. now apply nth_In.
  - rewrite nth_overflow by exact Hi. lia.
Qed.

Lemma installed_base_nonneg (units_sold : list Z) (i : nat) :
  Forall (fun u => 0 <= u) units_sold -> 0 <= installed_base units_sold i.
Proof. intros Hu. apply sum_nonneg, Forall_firstn, Hu. Qed.

(** X8, growth.  For non-negative unit counts, hardware price and
    subscription fee, neither the recurring revenue nor the cumulative
    revenue decreases from one year to the next. *)
Theorem revenue_never_decreases (years units_sold : list Z)
    (hardware_price hardware_cost subscription_fee subscription_cost : Z)
    (i : nat) :
  length years = length units_sold ->
  Forall (fun u => 0 <= u) units_sold ->
  0 <= hardware_price -> 0 <= subscription_fee ->
  (1 <= i)%nat ->
  (i < length years)%nat ->
  exists v r0 r1 c0 c1,
    integer_columns years units_sold hardware_price hardware_cost
      subscription_fee subscription_cost = Ok v
    /\ nth_error (Var.recurring_revenue v) (i - 1) = Some r0
    /\ nth_error (Var.recurring_revenue v) i = Some r1
    /\ r0 <= r1
    /\ nth_error (Var.cumulative_revenue v) (i - 1) = Some c0
    /\ nth_error (Var.cumulative_revenue v) i = Some c1
    /\ c0 <= c1
    /\ forall initial_investment df,
         calculate_projections years units_sold hardware_price hardware_cost
           subscription_fee subscription_cost initial_investment = Ok df ->
         Recurring_Revenue df = Var.recurring_revenue v
         /\ Cumulative_Revenue df = Var.cumulative_revenue v.
Proof.
  intros Hlen Hu Hp Hf H1 Hi.
  destruct i as [|j]; [lia|].
  replace (S j - 1)%nat with j by lia.
  eexists. do 4 eexists.
  split; [apply integer_columns_eq; lia|].
  split; [apply entry_recurring_revenue; lia|].
  split; [now apply entry_recurring_revenue|].
  split.
  { unfold recurring_revenue_at. rewrite installed_base_succ.
    pose proof (units_at_nonneg units_sold (S j) Hu). nia. }
  split; [apply entry_cumulative_revenue; lia|].
  split; [now apply entry_cumulative_revenue|].
  split.
  { rewrite cumulative_revenue_at_succ.
    pose proof (total_revenue_at_nonneg units_sold hardware_price
                  subscription_fee (S j) Hu Hp Hf).
    lia. }
  intros inv df Hdf. apply calculate_projections_table in Hdf.
  destruct Hdf as (_ & _ & _ & _ & Hrr & _ & _ & _ & Hcr & _).
  split; assumption.
Qed.

Lemma revenue_never_decreases_witness :
  length [1; 2; 3] = length [100; 0; 25]
  /\ Forall (fun u => 0 <= u) [100; 0; 25]
  /\ 0 <= 15000 /\ 0 <= 2000
  /\ (1 <= 1)%nat
  /\ (1 < length [1; 2; 3])%nat
  /\ (exists df,
        calculate_projections [1; 2; 3] [100; 0; 25] 15000 11000 2000 500
          6000000 = Ok df
        /\ Total_Revenue df = [1700000; 200000; 625000]
        /\ Cumulative_Revenue df = [1700000; 1900000; 2525000])
  /\ exists v r0 r1 c0 c1,
       integer_columns [1; 2; 3] [100; 0; 25] 15000 11000 2000 500 = Ok v
       /\ nth_error (Var.recurring_revenue v) (1 - 1) = Some r0
       /\ nth_error (Var.recurring_revenue v) 1 = Some r1
       /\ r0 <= r1
       /\ nth_error (Var.cumulative_revenue v) (1 - 1) = Some c0
       /\ nth_error (Var.cumulative_revenue v) 1 = Some c1
       /\ c0 <= c1
       /\ forall initial_investment df,
            calculate_projections [1; 2; 3] [100; 0; 25] 15000 11000 2000 500
              initial_investment = Ok df ->
            Recurring_Revenue df = Var.recurring_revenue v
            /\ Cumulative_Revenue df = Var.cumulative_revenue v.
Proof.
  split; [reflexivity|]. split; [repeat constructor; lia|].
  split; [lia|]. split; [lia|]. split; [lia|]. split; [simpl; lia|].
  split; [eexists; split; [vm_compute; reflexivity | split; reflexivity]|].
  apply (revenue_never_decreases [1; 2; 3] [100; 0; 25]
           15000 11000 2000 500 1%nat).
  - reflexivity.
  - repeat constructor; lia.
  - lia.
  - lia.
  - lia.
  - simpl. lia.
Defined.

(** X9, unit margins.  The profit of year [i] is the units sold that year
    times the hardware markup plus the installed base times the
    subscription markup.  When no unit count is negative and each of the
    two costs lies between zero and the matching price, the profit lies
    between zero and the total revenue of the year. *)
Theorem profit_between_zero_and_revenue (years units_sold : list Z)
    (hardware_price hardware_cost subscription_fee subscription_cost : Z)
    (i : nat) :
  length years = length units_sold ->
  (i < length years)%nat ->
  Forall (fun u => 0 <= u) units_sold ->
  0 <= hardware_cost <= hardware_price ->
  0 <= subscription_cost <= subscription_fee ->
  exists v p r,
    integer_columns years units_sold hardware_price hardware_cost
      subscription_fee subscription_cost = Ok v
    /\ nth_error (Var.profit v) i = Some p
    /\ nth_error (Var.total_revenue v) i = Some r
    /\ p = units_at units_sold i * (hardware_price - hardware_cost)
           + sigma (units_at units_sold) i
             * (subscription_fee - subscription_cost)
    /\ 0 <= p <= r
    /\ forall initial_investment df,
         calculate_projections years units_sold hardware_price hardware_cost
           subscription_fee subscription_cost initial_investment = Ok df ->
         nth_error (Profit df) i = Some p
         /\ nth_error (Total_Revenue df) i = Some r.
Proof.
  intros Hlen Hi Hu Hc Hs.
  eexists. eexists. eexists.
  split; [apply integer_columns_eq; lia|].
  split; [now apply entry_profit|].
  split; [now apply entry_total_revenue|].
  pose proof (units_at_nonneg units_sold i Hu) as Hu0.
  pose proof (installed_base_nonneg units_sold i Hu) as Hb0.
  rewrite <- installed_base_sigma.
  unfold profit_at, total_revenue_at, total_costs_at, hardware_revenue_at,
    recurring_revenue_at, hardware_costs_at, recurring_costs_at.
  split; [ring|]. split; [nia|].
  intros inv df Hdf. apply calculate_projections_table in Hdf.
  destruct Hdf as (_ & _ & _ & _ & _ & Htr & _ & Hp & _).
  rewrite Hp, Htr.
  split; [now apply entry_profit | now apply entry_total_revenue].
Qed.

Lemma profit_between_zero_and_revenue_witness :
  length [1; 2] = length [100; 100]
  /\ (1 < length [1; 2])%nat
  /\ Forall (fun u => 0 <= u) [100; 100]
  /\ 0 <= 11000 <= 15000
  /\ 0 <= 500 <= 2000
  /\ (exists df,
        calculate_projections [1; 2] [100; 100] 15000 11000 2000 500 6000000
        = Ok df
        /\ Profit df = [550000; 700000])
  /\ exists v p r,
       integer_columns [1; 2] [100; 100] 15000 11000 2000 500 = Ok v
       /\ nth_error (Var.profit v) 1 = Some p
       /\ nth_error (Var.total_revenue v) 1 = Some r
       /\ p = units_at [100; 100] 1 * (15000 - 11000)
              + sigma (units_at [100; 100]) 1 * (2000 - 500)
       /\ 0 <= p <= r
       /\ forall initial_investment df,
            calculate_projections [1; 2] [100; 100] 15000 11000 2000 500
              initial_investment = Ok df ->
            nth_error (Profit df) 1 = Some p
            /\ nth_error (Total_Revenue df) 1 = Some r.
Proof.
  split; [reflexivity|]. split; [simpl; lia|].
  split; [repeat constructor; lia|]. split; [lia|]. split; [lia|].
  split; [eexists; split; [vm_compute; reflexivity | reflexivity]|].
  apply (profit_between_zero_and_revenue [1; 2] [100; 100]
           15000 11000 2000 500 1%nat).
  - reflexivity.
  - simpl. lia.
  - repeat constructor; lia.
  - lia.
  - lia.
Defined.

(** ** The dashboard script *)

Lemma range_list_length (a b : Z) :
  length (Script.range_list a b) = Z.to_nat (b - a).
Proof. unfold Script.range_list. now rewrite length_map, length_seq. Qed.

Lemma years_list_length (w : Sidebar.t) :
  length (Script.years_list w) = Z.to_nat (Sidebar.years w).
Proof.
  unfold Script.years_list. rewrite range_list_length. f_equal. lia.
Qed.

Lemma units_sold_length (w : Sidebar.t) :
  length (Script.units_sold w) = Z.to_nat (Sidebar.years w).
Proof.
  unfold Script.units_sold, Py.range. now rewrite length_map, length_seq.
Qed.

Lemma years_list_nth (w : Sidebar.t) (i : nat) :
  (i < Z.to_nat (Sidebar.years w))%nat ->
  nth_error (Script.years_list w) i = Some (Z.of_nat i + 1).
Proof.
  intros Hi. unfold Script.years_list, Script.range_list.
  replace (Sidebar.years w + 1 - 1) with (Sidebar.years w) by lia.
  rewrite nth_error_map_range by exact Hi. f_equal. lia.
Qed.

Lemma units_sold_nth (w : Sidebar.t) (i : nat) :
  (i < Z.to_nat (Sidebar.years w))%nat ->
  nth_error (Script.units_sold w) i = Some (Sidebar.units_sold_in_year w i).
Proof.
  intros Hi. unfold Script.units_sold, Py.range.
  now apply nth_error_map_range.
Qed.

(** X10, matching sequences.  Whatever the widgets return, the script
    passes as many years as unit counts, so its call raises neither
    [IndexError] nor [ValueError]: it returns a table with one row per year,
    or raises [OverflowError], or, for an initial investment of zero,
    [ZeroDivisionError]. *)
Theorem dashboard_sequences_match (w : Sidebar.t) :
  length (Script.years_list w) = length (Script.units_sold w)
  /\ ((exists df,
         Script.data w = Ok df /\ has_rows df (Z.to_nat (Sidebar.years w)))
      \/ Script.data w = Raise OverflowError
      \/ (Script.data w = Raise ZeroDivisionError
          /\ Sidebar.initial_investment w = 0)).
Proof.
  assert (Hlen : length (Script.years_list w) = length (Script.units_sold w))
    by (rewrite years_list_length, units_sold_length; reflexivity).
  split; [exact Hlen|].
  destruct (Script.data w) as [df|e] eqn:Hdata; unfold Script.data in Hdata.
  - left. exists df. split; [reflexivity|].
    rewrite <- years_list_length.
    now apply calculate_projections_rows in Hdata.
  - right.
    destruct (calculate_projections_raise _ _ _ _ _ _ _ e Hlen Hdata)
      as [->|(-> & E0 & _)]; auto.
Qed.

Section SidebarBounds.

Variable w : Sidebar.t.
Hypothesis Hbounds : Sidebar.within_bounds w.
Hypothesis Hmost : Sidebar.at_most (2 ^ 255) w.

Lemma dashboard_valid_moderate (initial_investment : Z) :
  0 < initial_investment <= 2 ^ 255 ->
  valid_input (Script.years_list w) (Script.units_sold w)
    (Sidebar.hardware_price w) (Sidebar.hardware_cost w)
    (Sidebar.subscription_fee w) (Sidebar.subscription_cost w)
    initial_investment
  /\ moderate_input (Script.years_list w) (Script.units_sold w)
       (Sidebar.hardware_price w) (Sidebar.hardware_cost w)
       (Sidebar.subscription_fee w) (Sidebar.subscription_cost w)
       initial_investment.
Proof.
  intros Hinv.
  destruct Hbounds as (Hy & Hi & Hp & Hf & Hc & Hs & Hu).
  destruct Hmost as (Mi & Mp & Mf & Mc & Ms & Mu).
  assert (H10 : 10 <= 2 ^ 255) by (vm_compute; discriminate).
  remember (2 ^ 255) as B eqn:EB in *.
  split.
  - unfold valid_input.
    rewrite years_list_length, units_sold_length.
    split; [reflexivity|]. split; [lia|].
    split; [|lia].
    apply Forall_forall. intros x Hx. unfold Script.units_sold in Hx.
    apply in_map_iff in Hx. destruct Hx as (i & <- & _). apply Hu.
  - unfold moderate_input. rewrite <- EB.
    rewrite years_list_length.
    split; [lia|]. split; [|lia].
    apply Forall_forall. intros x Hx. unfold Script.units_sold in Hx.
    apply in_map_iff in Hx. destruct Hx as (i & <- & _). apply Mu.
Qed.

End SidebarBounds.

(** X11, the table of the dashboard.  When the widgets keep their bounds
    (1 to 10 years, nothing negative), no value exceeds [2 ^ 255] and the
    initial investment is not zero, the script obtains a table with one row
    per year, whose year column counts from 1 and whose unit column holds
    the unit widgets' values in order. *)
Theorem dashboard_shows_a_table (w : Sidebar.t) :
  Sidebar.within_bounds w ->
  Sidebar.at_most (2 ^ 255) w ->
  Sidebar.initial_investment w <> 0 ->
  exists df,
    Script.data w = Ok df
    /\ has_rows df (Z.to_nat (Sidebar.years w))
    /\ forall i,
         (i < Z.to_nat (Sidebar.years w))%nat ->
         nth_error (Year df) i = Some (Z.of_nat i + 1)
         /\ nth_error (Units_Sold df) i
            = Some (Sidebar.units_sold_in_year w i).
Proof.
  intros Hb Hm Hinv.
  assert (H0 : 0 < Sidebar.initial_investment w <= 2 ^ 255).
  { destruct Hb as (_ & Hi & _). destruct Hm as (Mi & _). lia. }
  destruct (dashboard_valid_moderate w Hb Hm _ H0) as (Hvalid & Hmod).
  destruct (calculate_projections_returns _ _ _ _ _ _ _ Hvalid Hmod)
    as (pm & roi & Hdf).
  eexists. split; [exact Hdf|].
  split.
  - rewrite <- years_list_length.
    now apply calculate_projections_rows in Hdf.
  - intros i Hi. cbn [projection_table Year Units_Sold].
    split; [now apply years_list_nth | now apply units_sold_nth].
Qed.

(** The values the widgets start with: five years of 100 units. *)
Lemma dashboard_shows_a_table_witness :
  let w := Sidebar.mk 5 6000000 15000 2000 11000 500 (fun _ => 100) in
  Sidebar.within_bounds w
  /\ Sidebar.at_most (2 ^ 255) w
  /\ Sidebar.initial_investment w <> 0
  /\ exists df,
       Script.data w = Ok df
       /\ has_rows df (Z.to_nat (Sidebar.years w))
       /\ forall i,
            (i < Z.to_nat (Sidebar.years w))%nat ->
            nth_error (Year df) i = Some (Z.of_nat i + 1)
            /\ nth_error (Units_Sold df) i
               = Some (Sidebar.units_sold_in_year w i).
Proof.
  intros w.
  assert (Hb : Sidebar.within_bounds w).
  { unfold Sidebar.within_bounds, w. cbn. repeat split; lia. }
  assert (Hm : Sidebar.at_most (2 ^ 255) w).
  { unfold Sidebar.at_most, w.
    cbn [Sidebar.initial_investment Sidebar.hardware_price
         Sidebar.subscription_fee Sidebar.hardware_cost
         Sidebar.subscription_cost Sidebar.units_sold_in_year].
    repeat (split; [vm_compute; discriminate|]).
    intros _. vm_compute. discriminate. }
  assert (Hi : Sidebar.initial_investment w <> 0) by (cbn; lia).
  split; [exact Hb|]. split; [exact Hm|]. split; [exact Hi|].
  exact (dashboard_shows_a_table w Hb Hm Hi).
Defined.

(** X12, zero investment.  The investment widget admits zero.  When the
    widgets keep their bounds, no value exceeds [2 ^ 255] and the initial
    investment is zero, the script's call raises [ZeroDivisionError]: the
    dashboard gets no table. *)
Theorem dashboard_zero_investment_raises (w : Sidebar.t) :
  Sidebar.within_bounds w ->
  Sidebar.at_most (2 ^ 255) w ->
  Sidebar.initial_investment w = 0 ->
  Script.data w = Raise ZeroDivisionError.
Proof.
  intros Hb Hm Hinv.
  assert (H1 : 0 < 1 <= 2 ^ 255) by (split; [lia | vm_compute; discriminate]).
  destruct (dashboard_valid_moderate w Hb Hm 1 H1) as (Hvalid & Hmod).
  destruct (calculate_projections_returns _ _ _ _ _ _ _ Hvalid Hmod)
    as (pm & roi & Hdf).
  apply calculate_projections_table in Hdf.
  destruct Hdf as (Hlen & _ & _ & _ & _ & _ & _ & _ & _ & Hpm & _).
  cbn [projection_table Profit_Margin] in Hpm.
  unfold Script.data. rewrite Hinv.
  rewrite calculate_projections_unfold by lia.
  rewrite Hpm. cbn [bind].
  assert (Hroi : Stmt.roi
                   (Var.cumulative_revenue
                      (columns (Script.units_sold w) (Sidebar.hardware_price w)
                         (Sidebar.hardware_cost w) (Sidebar.subscription_fee w)
                         (Sidebar.subscription_cost w)
                         (length (Script.years_list w))))
                   0 (Script.years_list w)
                 = Raise ZeroDivisionError).
  { unfold Stmt.roi, Py.range.
    apply comprehension_seq_first_raise with (k := 0%nat).
    - destruct Hvalid as (_ & Hn & _). lia.
    - intros i Hi. lia.
    - cbn [Var.cumulative_revenue columns]. apply roi_at_zero.
      + destruct Hvalid as (_ & Hn & _). lia.
      + reflexivity. }
  rewrite Hroi. reflexivity.
Qed.

Lemma dashboard_zero_investment_raises_witness :
  let w := Sidebar.mk 5 0 15000 2000 11000 500 (fun _ => 100) in
  Sidebar.within_bounds w
  /\ Sidebar.at_most (2 ^ 255) w
  /\ Sidebar.initial_investment w = 0
  /\ Script.data w = Raise ZeroDivisionError.
Proof.
  intros w.
  assert (Hb : Sidebar.within_bounds w).
  { unfold Sidebar.within_bounds, w. cbn. repeat split; lia. }
  assert (Hm : Sidebar.at_most (2 ^ 255) w).
  { unfold Sidebar.at_most, w.
    cbn [Sidebar.initial_investment Sidebar.hardware_price
         Sidebar.subscription_fee Sidebar.hardware_cost
         Sidebar.subscription_cost Sidebar.units_sold_in_year].
    repeat (split; [vm_compute; discriminate|]).
    intros _. vm_compute. discriminate. }
  split; [exact Hb|]. split; [exact Hm|]. split; [reflexivity|].
  exact (dashboard_zero_investment_raises w Hb Hm eq_refl).
Defined.
